(** * Automated smart-contract tester: the submission execution pipeline

    A shallow embedding of the TypeScript sources of the runner
    ([forgeUtils.ts], [project-service.ts]) and of the front service
    ([executionApi.ts], [router-utils.ts], the message-request service),
    with the properties the specification states about them.

    JavaScript strings are modelled as [string]; the letter classes of
    the regular expression [/([a-z])([A-Z])/g] and of [toLowerCase] are
    the ASCII ones.  A JavaScript object used as a dictionary is a
    [gmap string _]; where the order of [Object.entries] matters the
    object is the list of its entries. *)

From Stdlib Require Import Ascii String ZArith List.
From stdpp Require Import base option list strings gmap fin_maps pretty.

Open Scope string_scope.

(** ** JavaScript values and results *)

(** A value that may be [null] or [undefined] besides a string, as in
    [string | undefined | null]. *)
Inductive MaybeText : Type :=
| Text (s : string)
| Null
| Undefined.

(** The primitive values the parsers put in a test report.  Numbers are
    the integers the tool prints (gas counts and their differences). *)
Inductive JsValue : Type :=
| JsUndefined
| JsNull
| JsBool (b : bool)
| JsNumber (n : Z)
| JsString (s : string).

#[global] Instance JsValue_eq_dec : EqDecision JsValue.
Proof. solve_decision. Defined.

(** A plain object: own enumerable properties by name. *)
Abbreviation JsObject := (gmap string JsValue).

(** Object spread [{ ...a, ...b }]: the properties of [b] win. *)
Definition spread (a b : JsObject) : JsObject := b ∪ a.

(** [Array.prototype.join]. *)
Fixpoint join (sep : string) (parts : list string) : string :=
  match parts with
  | [] => ""
  | [p] => p
  | p :: rest => p +:+ sep +:+ join sep rest
  end.

(** JavaScript truthiness of a string: only the empty string is falsy. *)
Definition truthy (s : string) : bool :=
  match s with
  | EmptyString => false
  | String _ _ => true
  end.

(** ** forgeUtils.ts: the execution command *)

Module ForgeUtils.

Definition is_lower (c : ascii) : bool :=
  (97 <=? N_of_ascii c)%N && (N_of_ascii c <=? 122)%N.

Definition is_upper (c : ascii) : bool :=
  (65 <=? N_of_ascii c)%N && (N_of_ascii c <=? 90)%N.

Definition lower_char (c : ascii) : ascii :=
  if is_upper c then ascii_of_N (N_of_ascii c + 32) else c.

(** [String.prototype.toLowerCase] on a string of ASCII characters: the
    letters A to Z are lowered and every other character is kept.  (On
    other cased letters, which no argument name of the whitelist has,
    JavaScript lowers more.) *)
Fixpoint toLowerCase (s : string) : string :=
  match s with
  | EmptyString => EmptyString
  | String c rest => String (lower_char c) (toLowerCase rest)
  end.

(** [input.replace(/([a-z])([A-Z])/g, '$1-$2')]: scanning from the left,
    a lower-case letter followed by an upper-case one is a match, the
    two characters are emitted with a hyphen between them and the scan
    resumes after the match; any other character is copied. *)
Fixpoint replaceCamel (s : string) : string :=
  match s with
  | EmptyString => EmptyString
  | String c1 rest =>
      match rest with
      | EmptyString => String c1 EmptyString
      | String c2 rest' =>
          if is_lower c1 && is_upper c2
          then String c1 (String "-" (String c2 (replaceCamel rest')))
          else String c1 (replaceCamel rest)
      end
  end.

Definition convertCamelToExecArg (input : string) : string :=
  "--" +:+ toLowerCase (replaceCamel input).

(** Modelled from the spec: the values of the enum
    [ForgeTestExecutionArgument] (its file is not among the sources), the
    closed set of whitelisted execution arguments of section 6. *)
Definition VALID_TEST_EXECUTION_ARGUMENTS : list string :=
  [ "matchContract"; "matchTest"; "matchPath";
    "noMatchContract"; "noMatchTest"; "noMatchPath";
    "fuzzRuns"; "fuzzSeed" ].

(** [VALID_TEST_EXECUTION_ARGUMENTS.includes(argumentName)]. *)
Definition includes (names : list string) (name : string) : bool :=
  existsb (String.eqb name) names.

Section ExecutionArguments.

(** The values of an execution-arguments object and their conversion to
    a string by a template literal. *)
Context {Value : Type} (toString : Value → string).

(** [Constants.FORGE_CMD_COMPARE_SNAPSHOTS]. *)
Variable FORGE_CMD_COMPARE_SNAPSHOTS : string.

(** An execution-arguments object, as [Object.entries] lists it. *)
Definition Entries : Type := list (string * Value).

Definition isValidEntry (entry : string * Value) : bool :=
  includes VALID_TEST_EXECUTION_ARGUMENTS entry.1.

Definition renderEntry (entry : string * Value) : string :=
  convertCamelToExecArg entry.1 +:+ " " +:+ toString entry.2.

(** The argument is [None] for [undefined] (or any falsy value). *)
Definition convertTestExecutionArgsToString (executionArguments : option Entries) : string :=
  match executionArguments with
  | Some entries => join " " (map renderEntry (filter isValidEntry entries))
  | None => ""
  end.

Definition getTestExecutionCommand (execArgs : option Entries) : string :=
  let executionArgsString := convertTestExecutionArgsToString execArgs in
  let executionCommand := FORGE_CMD_COMPARE_SNAPSHOTS in
  if truthy executionArgsString
  then executionCommand +:+ " " +:+ executionArgsString
  else executionCommand.

End ExecutionArguments.

(** The kebab-case form of a camelCase name, as the specification words
    it: every upper-case letter starts a new word, written in lower case
    after a hyphen. *)
Fixpoint kebabCase (name : string) : string :=
  match name with
  | EmptyString => EmptyString
  | String c rest =>
      if is_upper c
      then String "-" (String (lower_char c) (kebabCase rest))
      else String c (kebabCase rest)
  end.

(** The entries of an object whose key is whitelisted, in order. *)
Definition retained {Value : Type} (entries : list (string * Value)) : list (string * Value) :=
  filter (λ entry, entry.1 ∈ VALID_TEST_EXECUTION_ARGUMENTS) entries.

(** A command followed by arguments, a single space before each. *)
Definition followedBy (command : string) (arguments : list string) : string :=
  foldl (λ cmd argument, cmd +:+ " " +:+ argument) command arguments.

(** One pass over a name that writes a hyphen before every upper-case
    letter that directly follows a lower-case letter; [afterLower] tells
    whether the previous character was a lower-case letter. *)
Fixpoint hyphenate (afterLower : bool) (s : string) : string :=
  match s with
  | EmptyString => EmptyString
  | String c rest =>
      if afterLower && is_upper c
      then String "-" (String c (hyphenate (is_lower c) rest))
      else String c (hyphenate (is_lower c) rest)
  end.

(** A camelCase name: every upper-case letter directly follows a
    lower-case letter. *)
Fixpoint camelFrom (afterLower : bool) (s : string) : bool :=
  match s with
  | EmptyString => true
  | String c rest => (if is_upper c then afterLower else true) && camelFrom (is_lower c) rest
  end.

Definition isCamelCase (name : string) : bool := camelFrom false name.

(** Every character of the string is an ASCII character. *)
Fixpoint isAscii (s : string) : bool :=
  match s with
  | EmptyString => true
  | String c rest => (N_of_ascii c <? 128)%N && isAscii rest
  end.

(** No character of the string is an upper-case letter. *)
Fixpoint noUpper (s : string) : bool :=
  match s with
  | EmptyString => true
  | String c rest => negb (is_upper c) && noUpper rest
  end.

End ForgeUtils.


(** ** Errors and results

    A JavaScript computation either returns a value or throws.  What is
    thrown is a plain [Error] (a [TypeError] included) or an [AppError]
    carrying an HTTP status code. *)

Record AppError : Type := mkAppError {
  statusCode : Z;
  message : string;
  reason : option string
}.

Inductive Thrown : Type :=
| JsError (msg : string)
| JsTypeError (msg : string)
| AppErr (e : AppError).

Inductive Result (A : Type) : Type :=
| Ok (a : A)
| Throw (e : Thrown).

Arguments Ok {A} a.
Arguments Throw {A} e.

(** ** Test reports *)

(** [TestOutput]: the [overall] block and the sequence of per-test
    records; either may be missing from what a parser returns. *)
Record TestOutput : Type := mkTestOutput {
  overall : option JsObject;
  tests : option (list JsObject)
}.

(** What the gas-diff parser returns: its [tests] is an object indexed
    by test name. *)
Record GasChangeOutput : Type := mkGasChangeOutput {
  gas_overall : option JsObject;
  gas_tests : gmap string JsObject
}.

(** The property key a value is converted to when it indexes an object. *)
Definition toPropertyKey (v : option JsValue) : string :=
  match v with
  | None | Some JsUndefined => "undefined"
  | Some JsNull => "null"
  | Some (JsBool true) => "true"
  | Some (JsBool false) => "false"
  | Some (JsNumber n) => pretty n
  | Some (JsString s) => s
  end.

(** [result.test]. *)
Definition testName (result : JsObject) : string :=
  toPropertyKey (result !! "test").

(** Spreading [undefined] adds no property. *)
Definition spreadable (o : option JsObject) : JsObject := default ∅ o.

Module ForgeMerge.

(** [{ ...result, ...(gasChangeOutput.tests[result.test] || {}) }]. *)
Definition mergeTest (gasChangeOutput : GasChangeOutput) (result : JsObject) : JsObject :=
  spread result (spreadable (gas_tests gasChangeOutput !! testName result)).

(** The object literal [processForgeTestOutput] returns. *)
Definition mergeOutputs (testOutput : TestOutput) (gasChangeOutput : GasChangeOutput) : TestOutput :=
  {| overall := Some (spread (spreadable (overall testOutput))
                             (spreadable (gas_overall gasChangeOutput)));
     tests := map (mergeTest gasChangeOutput) <$> tests testOutput |}.

Section Parsers.

(** The two parsers of the forge test output; their files are not among
    the sources. *)
Variable extractTestResultsFromForgeTestExecutionOutput : MaybeText → Result TestOutput.
Variable extractGasChangeFromForgeTestExecutionOutput : MaybeText → Result GasChangeOutput.

Definition processForgeTestOutput (forgeTestOutput : MaybeText) : Result TestOutput :=
  match extractTestResultsFromForgeTestExecutionOutput forgeTestOutput with
  | Throw e => Throw e
  | Ok testOutput =>
      match extractGasChangeFromForgeTestExecutionOutput forgeTestOutput with
      | Throw e => Throw e
      | Ok gasChangeOutput => Ok (mergeOutputs testOutput gasChangeOutput)
      end
  end.

End Parsers.

End ForgeMerge.

(** ** The gas-snapshot parser *)

Module GasSnapshot.

Definition newline : ascii := ascii_of_N 10.

Definition is_digit (c : ascii) : bool :=
  (48 <=? N_of_ascii c)%N && (N_of_ascii c <=? 57)%N.

(** The text before and after the first occurrence of a character. *)
Fixpoint splitAt (sep : ascii) (s : string) : option (string * string) :=
  match s with
  | EmptyString => None
  | String c rest =>
      if Ascii.eqb c sep then Some (EmptyString, rest)
      else match splitAt sep rest with
           | Some (before, after) => Some (String c before, after)
           | None => None
           end
  end.

Fixpoint lines (s : string) : list string :=
  match s with
  | EmptyString => [EmptyString]
  | String c rest =>
      if Ascii.eqb c newline then EmptyString :: lines rest
      else match lines rest with
           | l :: ls => String c l :: ls
           | [] => [String c EmptyString]
           end
  end.

Fixpoint stripPrefix (p s : string) : option string :=
  match p, s with
  | EmptyString, _ => Some s
  | String a p', String b s' => if Ascii.eqb a b then stripPrefix p' s' else None
  | String _ _, EmptyString => None
  end.

Fixpoint allDigits (s : string) : bool :=
  match s with
  | EmptyString => true
  | String c rest => is_digit c && allDigits rest
  end.

Fixpoint digitsValue (acc : N) (s : string) : N :=
  match s with
  | EmptyString => acc
  | String c rest => digitsValue (acc * 10 + (N_of_ascii c - 48))%N rest
  end.

(** Modelled from the spec: one line of a gas snapshot,
    [TestSuite:testName() (gas: <integer>)], gives the test name
    [TestSuite.testName] and the gas used; a line of any other shape
    gives nothing. *)
Definition parseLine (line : string) : option (string * N) :=
  match splitAt ":" line with
  | Some (String c suite, rest) =>
      match splitAt "(" rest with
      | Some (String d name, tail) =>
          match stripPrefix ") (gas: " tail with
          | Some counted =>
              match splitAt ")" counted with
              | Some (String e digits, EmptyString) =>
                  if allDigits (String e digits)
                  then Some (String c suite +:+ "." +:+ String d name,
                             digitsValue 0 (String e digits))
                  else None
              | _ => None
              end
          | None => None
          end
      | _ => None
      end
  | _ => None
  end.

Definition testRecord (parsed : string * N) : JsObject :=
  <["test" := JsString parsed.1]>
    (<["gasUsed" := JsNumber (Z.of_N parsed.2)]>
       (<["status" := JsString "PASS"]> ∅)).

Definition reportOf (parsed : list (string * N)) : TestOutput :=
  {| overall := Some (<["numberOfTests" := JsNumber (Z.of_nat (length parsed))]> ∅);
     tests := Some (map testRecord parsed) |}.

(** The report of a text none of whose lines is recognised. *)
Definition emptyTestOutput : TestOutput := reportOf [].

(** Modelled from the spec: [extractTestOutputFromGasSnapshot] of
    [forgeSnapshotOutputParsers] (not among the sources).  Every line of
    the snapshot shape yields a passing test with its gas; malformed
    lines are skipped; [overall.numberOfTests] counts the parsed lines;
    a missing text is read as an empty one. *)
Definition extractTestOutputFromGasSnapshot (gasSnapshotText : MaybeText) : TestOutput :=
  match gasSnapshotText with
  | Text s => reportOf (omap parseLine (lines s))
  | Null | Undefined => emptyTestOutput
  end.

End GasSnapshot.


(** ** project-service.ts: building a project *)

Module ProjectService.

(** Modelled from the spec: the enum [DockerExitCode] (not among the
    sources), the translated exit codes of section 4.2. *)
Inductive DockerExitCode : Type :=
| SUCCESS
| PURPOSELY_STOPPED
| APPLICATION_ERROR
| TIMEOUT.

#[global] Instance DockerExitCode_eq_dec : EqDecision DockerExitCode.
Proof. solve_decision. Defined.

(** Modelled from the spec: the enum [ContainerPurpose] of the data
    model. *)
Inductive ContainerPurpose : Type :=
| PROJECT_CREATION
| SUBMISSION.

Record DockerImage : Type := mkDockerImage {
  imageName : string;
  imageID : string
}.

(** [IDockerContainerResults['output']]: what the container printed, or,
    once processed, the test report. *)
Inductive ContainerOutput : Type :=
| RawOutput (data : MaybeText)
| ProcessedOutput (report : TestOutput).

(** [output?.data]. *)
Definition dataOf (output : option ContainerOutput) : MaybeText :=
  match output with
  | Some (RawOutput data) => data
  | Some (ProcessedOutput _) | None => Undefined
  end.

Record ContainerResults : Type := mkContainerResults {
  statusCode : DockerExitCode;
  output : option ContainerOutput
}.

Record DockerContainerHistory : Type := mkDockerContainerHistory {
  dockerImage : DockerImage;
  purpose : ContainerPurpose;
  container : ContainerResults
}.

Record SavedProject : Type := mkSavedProject {
  isNew : bool;
  project : DockerContainerHistory
}.

Section Output.

(** The snapshot parser behind [forgeUtils.processForgeSnapshotOutput]
    and [errorUtils.handleError] of the runner. *)
Variable extractTestOutputFromGasSnapshot : MaybeText → Result TestOutput.
Variable handleError : Thrown → string → AppError.

(** [forgeUtils.processForgeSnapshotOutput]. *)
Definition processForgeSnapshotOutput (gasSnapshotText : MaybeText) : Result TestOutput :=
  extractTestOutputFromGasSnapshot gasSnapshotText.

Definition processDockerContainerOutput
  (projectName : string) (output : option ContainerOutput) : Result ContainerOutput :=
  match processForgeSnapshotOutput (dataOf output) with
  | Ok report => Ok (ProcessedOutput report)
  | Throw err =>
      Throw (AppErr (handleError err
        ("An error occurred while retrieving the names of the tests for the "
           +:+ projectName +:+ " project from the gas snapshot output.")))
  end.

End Output.

Definition Buffer : Type := list N.

(** [Constants] of the runner. *)
Record Constants : Type := mkConstants {
  CMD_RETRIEVE_SNAPSHOTS : string;
  PROJECT_UPLOAD_REQUIREMENTS_FILES : list string;
  PROJECT_UPLOAD_REQUIREMENTS_FOLDERS : list string;
  PATH_PROJECT_TEMPLATE : string
}.

(** The calls [saveProject] makes on its collaborators, in order. *)
Inductive Call : Type :=
| ReadFromZipBuffer (execName : string)
| CreateImage (projectName tempProjectDirPath : string)
| RemoveDirectorySync (tempDirPath : string)
| RunImage (execName imageName command : string)
| SaveDockerImageWithDockerContainerHistory (image : DockerImage) (history : DockerContainerHistory)
| RemoveImage (imageName : string) (shouldPrune : bool).

(** The modules [saveProject] imports ([fsUtils], [dockerUtils],
    [dockerImageService], [errorUtils], the snapshot parser): each call
    acts on the world outside (file system, container engine, database)
    and returns or throws. *)
Record Collaborators (World : Type) : Type := mkCollaborators {
  readFromZipBuffer :
    string → Buffer → list string → list string → list string →
    World → Result (string * string) * World;
  removeDirectorySync : string → World → Result unit * World;
  createImage : string → string → World → Result DockerImage * World;
  runImage : string → string → string → World → Result ContainerResults * World;
  removeImage : string → bool → World → Result unit * World;
  saveDockerImageWithDockerContainerHistory :
    DockerImage → DockerContainerHistory →
    World → Result (bool * DockerContainerHistory) * World;
  extractTestOutputFromGasSnapshot : MaybeText → Result TestOutput;
  handleError : Thrown → string → AppError
}.

Arguments readFromZipBuffer {World} _.
Arguments removeDirectorySync {World} _.
Arguments createImage {World} _.
Arguments runImage {World} _.
Arguments removeImage {World} _.
Arguments saveDockerImageWithDockerContainerHistory {World} _.
Arguments extractTestOutputFromGasSnapshot {World} _.
Arguments handleError {World} _.

(** The state [saveProject] runs in: the world outside, the calls made
    so far, and the local variable [dockerImage]. *)
Record State (World : Type) : Type := mkState {
  world : World;
  calls : list Call;
  dockerImageVar : option DockerImage
}.

Arguments mkState {World}.
Arguments world {World}.
Arguments calls {World}.
Arguments dockerImageVar {World}.

Definition M (World A : Type) : Type := State World → Result A * State World.

Section Monad.

Context {World : Type}.

Definition ret {A : Type} (a : A) : M World A := λ s, (Ok a, s).

Definition throw {A : Type} (e : Thrown) : M World A := λ s, (Throw e, s).

Definition bind {A B : Type} (m : M World A) (k : A → M World B) : M World B :=
  λ s, match m s with
       | (Ok a, s') => k a s'
       | (Throw e, s') => (Throw e, s')
       end.

(** [try { m } catch (err) { handler err }]. *)
Definition tryCatch {A : Type} (m : M World A) (handler : Thrown → M World A) : M World A :=
  λ s, match m s with
       | (Ok a, s') => (Ok a, s')
       | (Throw e, s') => handler e s'
       end.

(** [promise.finally(callback)]: the callback runs either way; the
    outcome is the promise's unless the callback throws. *)
Definition finally {A : Type} (m : M World A) (callback : M World unit) : M World A :=
  λ s, match m s with
       | (r, s') =>
           match callback s' with
           | (Ok _, s'') => (r, s'')
           | (Throw e, s'') => (Throw e, s'')
           end
       end.

(** A call on a collaborator, recorded. *)
Definition call {A : Type} (c : Call) (op : World → Result A * World) : M World A :=
  λ s, match op (world s) with
       | (r, w') => (r, mkState w' (calls s ++ [c]) (dockerImageVar s))
       end.

Definition lift {A : Type} (r : Result A) : M World A := λ s, (r, s).

Definition getDockerImage : M World (option DockerImage) :=
  λ s, (Ok (dockerImageVar s), s).

Definition setDockerImage (image : option DockerImage) : M World unit :=
  λ s, (Ok tt, mkState (world s) (calls s) image).

End Monad.

Notation "x <- m ;; k" := (bind m (λ x, k))
  (at level 100, m at next level, right associativity).
Notation "m ;;; k" := (bind m (λ _, k))
  (at level 100, right associativity).

Section Service.

Context {World : Type}.
Variable constants : Constants.
Variable env : Collaborators World.

Definition readProjectFromZipBuffer (execName : string) (zipBuffer : Buffer)
  : M World (string * string) :=
  call (ReadFromZipBuffer execName)
    (readFromZipBuffer env execName zipBuffer
       (PROJECT_UPLOAD_REQUIREMENTS_FILES constants)
       (PROJECT_UPLOAD_REQUIREMENTS_FOLDERS constants)
       [PATH_PROJECT_TEMPLATE constants]).

(** The body of the [try] block; [now] is what [Date.now()] returns. *)
Definition saveProjectBody (projectName : string) (zipBuffer : Buffer) (now : N)
  : M World SavedProject :=
  let execName := projectName +:+ "_creation_" +:+ pretty now in
  dirs <- readProjectFromZipBuffer execName zipBuffer ;;
  let tempDirPath := dirs.1 in
  let tempProjectDirPath := dirs.2 in
  image <- finally
    (call (CreateImage projectName tempProjectDirPath)
       (createImage env projectName tempProjectDirPath))
    (call (RemoveDirectorySync tempDirPath) (removeDirectorySync env tempDirPath)) ;;
  setDockerImage (Some image) ;;;
  containerResults <-
    call (RunImage execName (imageName image) (CMD_RETRIEVE_SNAPSHOTS constants))
      (runImage env execName (imageName image) (CMD_RETRIEVE_SNAPSHOTS constants)) ;;
  containerResults <-
    (if decide (statusCode containerResults = PURPOSELY_STOPPED)
     then processed <- lift (processDockerContainerOutput
                               (extractTestOutputFromGasSnapshot env) (handleError env)
                               projectName (output containerResults)) ;;
          ret (mkContainerResults (statusCode containerResults) (Some processed))
     else ret containerResults) ;;
  let dockerContainerHistory :=
    mkDockerContainerHistory image PROJECT_CREATION containerResults in
  saved <-
    call (SaveDockerImageWithDockerContainerHistory image dockerContainerHistory)
      (saveDockerImageWithDockerContainerHistory env image dockerContainerHistory) ;;
  ret (mkSavedProject saved.1 saved.2).

Definition saveProject (projectName : string) (zipBuffer : Buffer) (now : N)
  : M World SavedProject :=
  setDockerImage None ;;;
  tryCatch (saveProjectBody projectName zipBuffer now)
    (λ err,
       created <- getDockerImage ;;
       match created with
       | Some image =>
           call (RemoveImage (imageName image) true) (removeImage env (imageName image) true)
       | None => ret tt
       end ;;;
       throw (AppErr (handleError env err
         ("An error occurred while creating the " +:+ projectName +:+ " project.")))).

(** [saveProject] started in a world, with no call made yet. *)
Definition runSaveProject (projectName : string) (zipBuffer : Buffer) (now : N) (w : World)
  : Result SavedProject * State World :=
  saveProject projectName zipBuffer now (mkState w [] None).

(** The image is built and [dockerImage] assigned: the archive is read,
    the adapter returns the image, the scratch directory is removed. *)
Definition imageBuilt (projectName : string) (zipBuffer : Buffer) (now : N)
  (w : World) (dirs : string * string) (image : DockerImage) (w' : World) : Prop :=
  ∃ w1 w2,
    readFromZipBuffer env (projectName +:+ "_creation_" +:+ pretty now) zipBuffer
      (PROJECT_UPLOAD_REQUIREMENTS_FILES constants)
      (PROJECT_UPLOAD_REQUIREMENTS_FOLDERS constants)
      [PATH_PROJECT_TEMPLATE constants] w = (Ok dirs, w1) ∧
    createImage env projectName dirs.2 w1 = (Ok image, w2) ∧
    removeDirectorySync env dirs.1 w2 = (Ok tt, w').

Definition buildCalls (projectName : string) (now : N) (dirs : string * string) : list Call :=
  [ ReadFromZipBuffer (projectName +:+ "_creation_" +:+ pretty now);
    CreateImage projectName dirs.2;
    RemoveDirectorySync dirs.1 ].

(** The ways the build can fail once [dockerImage] is assigned, from
    world [w]: the discovery run throws, the processing of its output
    throws, or the persistence throws.  The relation gives the error
    thrown, the world it is thrown in, and the calls made since. *)
Inductive laterFailure (projectName : string) (now : N) (image : DockerImage) (w : World)
  : Thrown → World → list Call → Prop :=
| discovery_run_failure err w' :
    runImage env (projectName +:+ "_creation_" +:+ pretty now) (imageName image)
      (CMD_RETRIEVE_SNAPSHOTS constants) w = (Throw err, w') →
    laterFailure projectName now image w err w'
      [RunImage (projectName +:+ "_creation_" +:+ pretty now) (imageName image)
         (CMD_RETRIEVE_SNAPSHOTS constants)]
| output_processing_failure containerResults err w' :
    runImage env (projectName +:+ "_creation_" +:+ pretty now) (imageName image)
      (CMD_RETRIEVE_SNAPSHOTS constants) w = (Ok containerResults, w') →
    statusCode containerResults = PURPOSELY_STOPPED →
    processDockerContainerOutput (extractTestOutputFromGasSnapshot env) (handleError env)
      projectName (output containerResults) = Throw err →
    laterFailure projectName now image w err w'
      [RunImage (projectName +:+ "_creation_" +:+ pretty now) (imageName image)
         (CMD_RETRIEVE_SNAPSHOTS constants)]
| persistence_failure containerResults containerResults' err w' w'' :
    runImage env (projectName +:+ "_creation_" +:+ pretty now) (imageName image)
      (CMD_RETRIEVE_SNAPSHOTS constants) w = (Ok containerResults, w') →
    (if decide (statusCode containerResults = PURPOSELY_STOPPED)
     then option_map (mkContainerResults (statusCode containerResults) ∘ Some)
            (match processDockerContainerOutput (extractTestOutputFromGasSnapshot env)
                     (handleError env) projectName (output containerResults) with
             | Ok processed => Some processed
             | Throw _ => None
             end)
     else Some containerResults) = Some containerResults' →
    saveDockerImageWithDockerContainerHistory env image
      (mkDockerContainerHistory image PROJECT_CREATION containerResults') w' = (Throw err, w'') →
    laterFailure projectName now image w err w''
      [RunImage (projectName +:+ "_creation_" +:+ pretty now) (imageName image)
         (CMD_RETRIEVE_SNAPSHOTS constants);
       SaveDockerImageWithDockerContainerHistory image
         (mkDockerContainerHistory image PROJECT_CREATION containerResults')].

End Service.

(** *** A container engine and a database to run the service against *)

Record SimWorld : Type := mkSimWorld {
  engineImages : list string;
  savedImages : list DockerImage;
  savedHistories : list DockerContainerHistory
}.

(** What happens during one build: whether the adapter fails after the
    engine has tagged the image, how the discovery container exits and
    what it prints, and whether the database rejects the save. *)
Record Scenario : Type := mkScenario {
  buildFails : bool;
  exitCode : DockerExitCode;
  snapshot : MaybeText;
  saveFails : bool
}.

(** Modelled from the spec: the collaborators of section 4.1 that are
    not among the sources ([dockerUtils], [fsUtils],
    [dockerImageService], [errorUtils], the snapshot parser).  The engine
    keeps the set of image names; building tags [<project>] and removing
    untags it; the save appends the history record and upserts the
    image; the parser is the gas-snapshot parser of section 4.4. *)
Definition simulated (scenario : Scenario) : Collaborators SimWorld :=
  {| readFromZipBuffer := λ execName _ _ _ _ w,
       (Ok ("/tmp/" +:+ execName, "/tmp/" +:+ execName +:+ "/project"), w);
     removeDirectorySync := λ _ w, (Ok tt, w);
     createImage := λ projectName _ w,
       (if buildFails scenario
        then Throw (JsError "The image could not be inspected.")
        else Ok (mkDockerImage projectName "sha256:0001"),
        mkSimWorld (projectName :: engineImages w) (savedImages w) (savedHistories w));
     runImage := λ _ _ _ w,
       (Ok (mkContainerResults (exitCode scenario) (Some (RawOutput (snapshot scenario)))), w);
     removeImage := λ name _ w,
       (Ok tt,
        mkSimWorld (filter (λ n, n ≠ name) (engineImages w)) (savedImages w) (savedHistories w));
     saveDockerImageWithDockerContainerHistory := λ image history w,
       if saveFails scenario
       then (Throw (JsError "The database rejected the document."), w)
       else (Ok (bool_decide (imageName image ∉ imageName <$> savedImages w), history),
             mkSimWorld (engineImages w)
               (image :: filter (λ i, imageName i ≠ imageName image) (savedImages w))
               (savedHistories w ++ [history]));
     extractTestOutputFromGasSnapshot := λ text,
       Ok (GasSnapshot.extractTestOutputFromGasSnapshot text);
     handleError := λ err msg,
       match err with
       | AppErr e => e
       | JsError why | JsTypeError why => mkAppError 500 msg (Some why)
       end |}.

Definition simulatedConstants : Constants :=
  {| CMD_RETRIEVE_SNAPSHOTS := "forge snapshot";
     PROJECT_UPLOAD_REQUIREMENTS_FILES := ["foundry.toml"];
     PROJECT_UPLOAD_REQUIREMENTS_FOLDERS := ["test"];
     PATH_PROJECT_TEMPLATE := "/templates/project" |}.

Definition emptyWorld : SimWorld := mkSimWorld [] [] [].

(** The same collaborators with a file-system helper that rejects every
    archive (a required file or folder is missing). *)
Definition rejectingArchives (env : Collaborators SimWorld) : Collaborators SimWorld :=
  {| readFromZipBuffer := λ _ _ _ _ _ w,
       (Throw (AppErr (mkAppError 400 "The archive lacks a required file." None)), w);
     removeDirectorySync := removeDirectorySync env;
     createImage := createImage env;
     runImage := runImage env;
     removeImage := removeImage env;
     saveDockerImageWithDockerContainerHistory :=
       saveDockerImageWithDockerContainerHistory env;
     extractTestOutputFromGasSnapshot := extractTestOutputFromGasSnapshot env;
     handleError := handleError env |}.


End ProjectService.

(** ** The front service *)

(** [Express.Multer.File]: the uploaded file; its buffer may be missing. *)
Record RequestFile : Type := mkRequestFile {
  originalname : string;
  buffer : option (list N)
}.

(** Modelled from the spec: the enum [ContainerExecutionStatus] (not
    among the sources), the statuses that classify the outcome of a
    container run in sections 4.3 and 7. *)
Inductive ContainerExecutionStatus : Type :=
| SUCCESS
| APPLICATION_ERROR
| TIMEOUT
| INTERNAL.

#[global] Instance ContainerExecutionStatus_eq_dec : EqDecision ContainerExecutionStatus.
Proof. solve_decision. Defined.

Record ContainerExecutionResponse : Type := mkContainerExecutionResponse {
  status : ContainerExecutionStatus;
  responseOutput : option TestOutput
}.

(** *** executionApi.ts *)

Module ExecutionApi.

Record IProjectConfig : Type := mkProjectConfig {
  containerTimeout : option N;
  testExecutionArguments : option (list (string * JsValue))
}.

Record RequestConfig : Type := mkRequestConfig {
  method : string;
  url : string
}.

Record Messages : Type := mkMessages {
  successMessage : string;
  errorMessage : string
}.

(** [config?.containerTimeout || '']: a missing or zero timeout gives
    the empty string.  The timeout is a whole number of seconds below
    2^53, which JavaScript prints in decimal; fractions, [NaN] and
    larger numbers are outside this model. *)
Definition timeoutParameter (config : option IProjectConfig) : string :=
  match config with
  | Some c =>
      match containerTimeout c with
      | Some n => if (n =? 0)%N then "" else pretty n
      | None => ""
      end
  | None => ""
  end.

(** [config?.testExecutionArguments && { execArgs: ... }]. *)
Definition additionalData (config : option IProjectConfig) : option (list (string * JsValue)) :=
  match config with
  | Some c => testExecutionArguments c
  | None => None
  end.

Section Api.

(** [TestRunnerApiEndpointConfig.CONFIG_TEST_EXECUTION], the request to
    the runner ([apiFormDataUtils.sendFormData]), which returns the
    runner's response or throws on a failed upload, and
    [apiErrorUtils.handleContainerError]. *)
Variable CONFIG_TEST_EXECUTION : string → RequestConfig.
Variable sendFormData :
  RequestConfig → RequestFile → Messages → option (list (string * JsValue)) →
  Result ContainerExecutionResponse.
Variable handleContainerError : ContainerExecutionResponse → Thrown.

Definition executeSubmission
  (projectName : string) (requestFile : RequestFile) (config : option IProjectConfig)
  : Result ContainerExecutionResponse :=
  let requestConfig := CONFIG_TEST_EXECUTION projectName in
  let requestConfig :=
    mkRequestConfig (method requestConfig)
      (url requestConfig +:+ "?containerTimeout=" +:+ timeoutParameter config) in
  match
    sendFormData requestConfig requestFile
      (mkMessages
         ("The submission for the " +:+ projectName +:+
          " project has been successfully uploaded to the Test Runner service, and the Docker image has been executed.")
         ("An error occurred while uploading the submission for the " +:+ projectName +:+
          " project to the Test Runner service."))
      (additionalData config)
  with
  | Throw e => Throw e
  | Ok submissionExecutionResponse =>
      if decide (status submissionExecutionResponse ≠ SUCCESS)
      then Throw (handleContainerError submissionExecutionResponse)
      else Ok submissionExecutionResponse
  end.

(** The request [executeSubmission] sends for a project. *)
Definition sent (projectName : string) (requestFile : RequestFile)
  (config : option IProjectConfig) : Result ContainerExecutionResponse :=
  sendFormData
    (mkRequestConfig (method (CONFIG_TEST_EXECUTION projectName))
       (url (CONFIG_TEST_EXECUTION projectName) +:+ "?containerTimeout=" +:+
        timeoutParameter config))
    requestFile
    (mkMessages
       ("The submission for the " +:+ projectName +:+
        " project has been successfully uploaded to the Test Runner service, and the Docker image has been executed.")
       ("An error occurred while uploading the submission for the " +:+ projectName +:+
        " project to the Test Runner service."))
    (additionalData config).

End Api.

(** A runner that answers every submission with the given response, and
    an error handler that wraps the status of the response. *)
Definition answering (response : ContainerExecutionResponse)
  : RequestConfig → RequestFile → Messages → option (list (string * JsValue)) →
    Result ContainerExecutionResponse :=
  λ _ _ _ _, Ok response.

Definition containerError (response : ContainerExecutionResponse) : Thrown :=
  AppErr (mkAppError 500
    (match status response with
     | SUCCESS => "SUCCESS"
     | APPLICATION_ERROR => "APPLICATION_ERROR"
     | TIMEOUT => "TIMEOUT"
     | INTERNAL => "INTERNAL"
     end) None).

End ExecutionApi.

(** *** router-utils.ts *)

Module RouterUtils.

(** [HttpStatusCode.BadRequest] and [HttpStatusCode.InternalServerError]. *)
Definition BadRequest : Z := 400.
Definition InternalServerError : Z := 500.

(** The part of an Express request [getRequestFile] reads. *)
Record Request : Type := mkRequest {
  file : option RequestFile
}.

Section Router.

(** [errorUtils.handleError(err, message, statusCode)] of the front
    service. *)
Variable handleError : Thrown → string → Z → AppError.

Definition getRequestFile (req : Request) : Result RequestFile :=
  let attempt : Result RequestFile :=
    match file req with
    | None => Throw (JsTypeError "Cannot read properties of undefined (reading 'buffer')")
    | Some f =>
        match buffer f with
        | None => Throw (JsError "Cannot read the buffer.")
        | Some _ => Ok f
        end
    end in
  match attempt with
  | Ok f => Ok f
  | Throw err =>
      Throw (AppErr (handleError err "An error occurred while reading the file buffer." BadRequest))
  end.

(** The status [sendErrorResponse] answers with. *)
Definition responseStatus (err : Thrown) : Z :=
  match err with
  | AppErr e => statusCode e
  | JsError _ | JsTypeError _ => InternalServerError
  end.

End Router.

(** The part of an Express request [parseJsonObjectFromBody] reads: the
    text fields of the body, when a body was parsed at all. *)
Record Body : Type := mkBody {
  body : option (gmap string string)
}.

(** What [JSON.parse] makes of a text: a value, or a [SyntaxError]. *)
Inductive Parse (Json : Type) : Type :=
| ParsedValue (json : Json)
| SyntaxError (msg : string).

Arguments ParsedValue {Json} json.
Arguments SyntaxError {Json} msg.

(** What [parseJsonObjectFromBody] returns: the field as it is when it
    is falsy ([undefined] or the empty string), else the parsed value. *)
Inductive BodyObject (Json : Type) : Type :=
| NotProvided (jsonString : option string)
| Provided (json : Json).

Arguments NotProvided {Json} jsonString.
Arguments Provided {Json} json.

(** [!jsonString]. *)
Definition falsy (jsonString : option string) : bool :=
  match jsonString with
  | None => true
  | Some text => negb (truthy text)
  end.

(** What [sendErrorResponse] sends: the status and the error in the
    JSON body. *)
Record ErrorResponse : Type := mkErrorResponse {
  responseCode : Z;
  responseError : AppError
}.

Definition sendErrorResponse (err : Thrown) : ErrorResponse :=
  let httpErr :=
    match err with
    | AppErr e => e
    | JsError msg | JsTypeError msg => mkAppError InternalServerError msg None
    end in
  mkErrorResponse (statusCode httpErr) httpErr.

(** A [JSON.parse] that accepts a single text. *)
Definition parseOnly (accepted : string) (text : string) : Parse string :=
  if String.eqb text accepted then ParsedValue accepted else SyntaxError "Unexpected token".

Section Bodies.

Context {Json : Type}.

(** [JSON.parse], and [errorUtils.handleError] with its optional
    message and status code. *)
Variable JSONparse : string → Parse Json.
Variable handleError : Thrown → option string → option Z → AppError.

Definition parseJsonObjectFromBody (req : Body) (objectKey : string) (required : bool)
  : Result (BodyObject Json) :=
  match body req with
  | None =>
      Throw (JsTypeError
        ("Cannot read properties of undefined (reading '" +:+ objectKey +:+ "')"))
  | Some fields =>
      let jsonString := fields !! objectKey in
      if falsy jsonString && required
      then Throw (AppErr (handleError
             (AppErr (mkAppError BadRequest
                ("Object (" +:+ objectKey +:+ ") not found in the request body.") None))
             None None))
      else
        let attempt : Result (BodyObject Json) :=
          match jsonString with
          | Some (String c text) =>
              match JSONparse (String c text) with
              | ParsedValue json => Ok (Provided json)
              | SyntaxError msg => Throw (JsError msg)
              end
          | Some EmptyString | None => Ok (NotProvided jsonString)
          end in
        match attempt with
        | Ok object => Ok object
        | Throw _ =>
            Throw (AppErr (handleError
              (AppErr (mkAppError BadRequest
                 ("Failed to parse JSON object (" +:+ objectKey +:+
                  ") from the request body.") None))
              None None))
        end
  end.

End Bodies.

End RouterUtils.

(** *** router-utils.ts of the runner *)

Module RunnerRouterUtils.

Import RouterUtils.

(** [HTTPError]: the status code, the message and the optional reason
    its constructor takes, in that order. *)
Record HTTPError : Type := mkHTTPError {
  httpStatusCode : Z;
  httpMessage : string;
  httpReason : option string
}.

(** What the runner's router code throws and catches. *)
Inductive Raised : Type :=
| PlainError (msg : string)
| HttpError (e : HTTPError).

Inductive Outcome (A : Type) : Type :=
| Returned (a : A)
| Failed (e : Raised).

Arguments Returned {A} a.
Arguments Failed {A} e.

(** [(err as HTTPError)?.statusCode || 400]. *)
Definition statusCodeOr400 (err : Raised) : Z :=
  match err with
  | HttpError e => if (httpStatusCode e =? 0)%Z then 400%Z else httpStatusCode e
  | PlainError _ => 400%Z
  end.

(** [(err as Error)?.message]. *)
Definition messageOf (err : Raised) : string :=
  match err with
  | HttpError e => httpMessage e
  | PlainError msg => msg
  end.

(** [(err as HTTPError)?.reason || (err as Error)?.message]. *)
Definition reasonOrMessage (err : Raised) : string :=
  match err with
  | HttpError e =>
      match httpReason e with
      | Some why => if truthy why then why else httpMessage e
      | None => httpMessage e
      end
  | PlainError msg => msg
  end.

Section Runner.

Context {Json : Type}.

(** [JSON.parse] and [errorUtils.logAndGetError]. *)
Variable JSONparse : string → Parse Json.
Variable logAndGetError : HTTPError → Raised.

Definition parseJsonObjectFromBody (req : Body) (objectKey : string) (required : bool)
  : Outcome (BodyObject Json) :=
  let attempt : Outcome (BodyObject Json) :=
    match body req with
    | None =>
        Failed (PlainError
          ("Cannot read properties of undefined (reading '" +:+ objectKey +:+ "')"))
    | Some fields =>
        let jsonString := fields !! objectKey in
        if falsy jsonString && required
        then Failed (HttpError (mkHTTPError 400
               ("Object (" +:+ objectKey +:+ ") not found in the request body.") None))
        else
          match jsonString with
          | Some (String c text) =>
              match JSONparse (String c text) with
              | ParsedValue json => Returned (Provided json)
              | SyntaxError msg => Failed (PlainError msg)
              end
          | Some EmptyString | None => Returned (NotProvided jsonString)
          end
    end in
  match attempt with
  | Returned object => Returned object
  | Failed err =>
      Failed (logAndGetError (mkHTTPError (statusCodeOr400 err)
        ("Failed to parse JSON object (" +:+ objectKey +:+ ") from the request body.")
        (Some (reasonOrMessage err))))
  end.

(** [req.file!.buffer]; the buffer may be [undefined]. *)
Definition extractFileBuffer (req : Request) : Outcome (option (list N)) :=
  let attempt : Outcome (option (list N)) :=
    match file req with
    | None => Failed (PlainError "Cannot read properties of undefined (reading 'buffer')")
    | Some f => Returned (buffer f)
    end in
  match attempt with
  | Returned fileBuffer => Returned fileBuffer
  | Failed err =>
      Failed (logAndGetError (mkHTTPError 400
        "An error occurred while reading the file buffer." (Some (messageOf err))))
  end.

End Runner.

(** A [logAndGetError] that returns the error it is given. *)
Definition logAndGetErrorAsIs (e : HTTPError) : Raised := HttpError e.

(** What [handleError] sends: the status and the error in the JSON body. *)
Definition handleError (err : Raised) : Z * HTTPError :=
  let httpErr :=
    match err with
    | HttpError e => e
    | PlainError msg => mkHTTPError 500 msg None
    end in
  (httpStatusCode httpErr, httpErr).

End RunnerRouterUtils.

(** *** The message-request service *)

Module MessageRequestService.

Definition ObjectId : Type := string.

Inductive Payload : Type :=
| ResponsePayload (response : ContainerExecutionResponse)
| ErrorPayload (error : AppError)
| ObjectPayload (object : JsObject).

(** The optional [response] argument of [updateMessageRequest]. *)
Record Response : Type := mkResponse {
  response_isError : bool;
  response_data : Payload
}.

Record MessageRequest : Type := mkMessageRequest {
  _id : ObjectId;
  deployer : string;
  associatedDocumentId : option ObjectId;
  associatedDocumentType : option string;
  startingPositionInQueue : option Z;
  completed : bool;
  isError : option bool;
  output : option Payload
}.

(** Modelled from the spec: the MessageRequest collection of the front
    service, one document per identifier. *)
Abbreviation Collection := (gmap string MessageRequest).

Definition NotFound : Z := 404.

Definition findMessageRequest (messageRequestId : ObjectId) (db : Collection)
  : Result MessageRequest :=
  match db !! messageRequestId with
  | None =>
      Throw (AppErr (mkAppError NotFound
        ("Message request with ID=" +:+ messageRequestId +:+ " not found.") None))
  | Some messageRequest => Ok messageRequest
  end.

(** Modelled from the spec: the persistence of the mongoose model
    [MessageRequest] (not among the sources), whose collection holds one
    row per message request (section 6).  [messageRequest.save()] stores
    the document under its identifier, in place of the stored one; a
    rejected database operation is outside this model. *)
Definition saveMessageRequest (messageRequest : MessageRequest) (db : Collection)
  : Result MessageRequest * Collection :=
  (Ok messageRequest, <[_id messageRequest := messageRequest]> db).

(** [positionInTheQueue || 0]. *)
Definition positionOrZero (positionInTheQueue : option Z) : Z :=
  match positionInTheQueue with
  | Some n => if (n =? 0)%Z then 0%Z else n
  | None => 0%Z
  end.

(** [Object.assign(messageRequestFound, { ... })]. *)
Definition assignUpdate (messageRequestFound : MessageRequest)
  (documentId : ObjectId) (documentType : string)
  (response : option Response) (positionInTheQueue : option Z) : MessageRequest :=
  {| _id := _id messageRequestFound;
     deployer := deployer messageRequestFound;
     associatedDocumentId := Some documentId;
     associatedDocumentType := Some documentType;
     startingPositionInQueue := Some (positionOrZero positionInTheQueue);
     completed := true;
     isError := response_isError <$> response;
     output := response_data <$> response |}.

Definition updateMessageRequest (messageRequest : MessageRequest)
  (documentId : ObjectId) (documentType : string)
  (response : option Response) (positionInTheQueue : option Z) (db : Collection)
  : Result MessageRequest * Collection :=
  match findMessageRequest (_id messageRequest) db with
  | Throw e => (Throw e, db)
  | Ok messageRequestFound =>
      saveMessageRequest
        (assignUpdate messageRequestFound documentId documentType response positionInTheQueue) db
  end.

(** Every document of the collection is stored under its own
    identifier. *)
Definition wellKeyed (db : Collection) : Prop :=
  ∀ key messageRequest, db !! key = Some messageRequest → _id messageRequest = key.

End MessageRequestService.

(** * Properties *)

(** ** The execution command *)

Section ExecutionCommand.

Import ForgeUtils.

Context {Value : Type} (toString : Value → string).
Variable base : string.

Implicit Types (entries : list (string * Value)) (parts : list string).

Lemma append_assoc (a b c : string) : (a +:+ b) +:+ c = a +:+ (b +:+ c).
Proof.
  induction a as [|x a IH]; [reflexivity|].
  change (String x ((a +:+ b) +:+ c) = String x (a +:+ (b +:+ c))). by f_equal.
Qed.

Lemma truthy_append_l (a b : string) : truthy a = true → truthy (a +:+ b) = true.
Proof. by destruct a. Qed.

Lemma truthy_join parts p :
  truthy p = true → truthy (join " " (p :: parts)) = true.
Proof.
  intros Hp. destruct parts as [|q parts]; simpl; [done|].
  by apply truthy_append_l.
Qed.

Lemma truthy_renderEntry (entry : string * Value) :
  truthy (renderEntry toString entry) = true.
Proof. reflexivity. Qed.

Lemma includes_elem_of (names : list string) (name : string) :
  includes names name = true ↔ name ∈ names.
Proof.
  unfold includes. rewrite existsb_exists. split.
  - intros (x & Hin & Heq). apply String.eqb_eq in Heq. subst x.
    by apply list_elem_of_In.
  - intros Hin. exists name. split; [by apply list_elem_of_In | apply String.eqb_refl].
Qed.

Lemma isValidEntry_elem_of (entry : string * Value) :
  isValidEntry entry ↔ entry.1 ∈ VALID_TEST_EXECUTION_ARGUMENTS.
Proof.
  unfold isValidEntry. rewrite <- includes_elem_of.
  by destruct (includes _ _).
Qed.

Lemma filter_isValidEntry entries : filter isValidEntry entries = retained entries.
Proof. apply list_filter_iff. intros entry. apply isValidEntry_elem_of. Qed.

Lemma retained_idemp entries : retained (retained entries) = retained entries.
Proof. unfold retained. by apply list_filter_filter_l. Qed.

(** On the whitelisted names the regular expression of the source and
    the kebab-case form of the specification agree. *)
Lemma convertCamelToExecArg_kebab (name : string) :
  name ∈ VALID_TEST_EXECUTION_ARGUMENTS →
  convertCamelToExecArg name = "--" +:+ kebabCase name.
Proof.
  intros Hin. unfold VALID_TEST_EXECUTION_ARGUMENTS in Hin.
  repeat (apply elem_of_cons in Hin as [-> | Hin]; [reflexivity|]).
  by apply elem_of_nil in Hin.
Qed.

Example flags_of_the_whitelist :
  map convertCamelToExecArg VALID_TEST_EXECUTION_ARGUMENTS =
  [ "--match-contract"; "--match-test"; "--match-path";
    "--no-match-contract"; "--no-match-test"; "--no-match-path";
    "--fuzz-runs"; "--fuzz-seed" ].
Proof. reflexivity. Qed.

Lemma followedBy_join (command p : string) parts :
  command +:+ " " +:+ join " " (p :: parts) = followedBy command (p :: parts).
Proof.
  revert command p. induction parts as [|q parts IH]; intros command p.
  - reflexivity.
  - change (join " " (p :: q :: parts)) with (p +:+ " " +:+ join " " (q :: parts)).
    change (followedBy command (p :: q :: parts))
      with (followedBy (command +:+ " " +:+ p) (q :: parts)).
    rewrite <- IH. by rewrite !append_assoc.
Qed.

Lemma getTestExecutionCommand_followedBy entries :
  getTestExecutionCommand toString base (Some entries) =
  followedBy base (map (renderEntry toString) (retained entries)).
Proof.
  unfold getTestExecutionCommand, convertTestExecutionArgsToString.
  rewrite filter_isValidEntry.
  destruct (retained entries) as [|entry rest]; [reflexivity|].
  rewrite map_cons, truthy_join by apply truthy_renderEntry.
  apply followedBy_join.
Qed.

Lemma append_empty_r (a : string) : a +:+ "" = a.
Proof.
  induction a as [|c a IH]; [reflexivity|].
  change (String c (a +:+ "") = String c a). by f_equal.
Qed.

Lemma followedBy_prefix (command : string) (arguments : list string) :
  followedBy command arguments = command +:+ followedBy "" arguments.
Proof.
  revert command. induction arguments as [|a arguments IH]; intros command.
  - simpl. by rewrite append_empty_r.
  - simpl. rewrite IH. rewrite (IH ("" +:+ " " +:+ a)).
    by rewrite !append_assoc.
Qed.

Lemma renderEntry_retained entries :
  map (renderEntry toString) (retained entries) =
  map (λ entry, "--" +:+ kebabCase entry.1 +:+ " " +:+ toString entry.2) (retained entries).
Proof.
  apply map_ext_in. intros [key value] Hin.
  apply list_elem_of_In, list_elem_of_filter in Hin as [Hvalid _].
  unfold renderEntry. simpl in Hvalid |- *.
  by rewrite (convertCamelToExecArg_kebab key Hvalid).
Qed.

Lemma retained_unlisted (before after : list (string * Value)) (key : string) (value : Value) :
  key ∉ VALID_TEST_EXECUTION_ARGUMENTS →
  retained (before ++ (key, value) :: after)%list = retained (before ++ after)%list.
Proof.
  intros Hkey. unfold retained. rewrite !filter_app. f_equal.
  by apply filter_cons_False.
Qed.

(** C4: of an execution-arguments object exactly the entries whose key
    is one of the eight whitelisted names are forwarded, each as its
    flag and its value, in order: the argument string is these flags and
    values joined by single spaces, and the command run is the
    compare-snapshots command followed by them, so the submission goes
    on with the tool's command whatever other keys the object has.  An
    entry with any other key is dropped: the command is the one the
    object without that entry gives. *)
Theorem unlisted_arguments_are_dropped entries :
  let forwarded :=
    filter (λ entry : string * Value,
              entry.1 ∈ [ "matchContract"; "matchTest"; "matchPath";
                          "noMatchContract"; "noMatchTest"; "noMatchPath";
                          "fuzzRuns"; "fuzzSeed" ]) entries in
  convertTestExecutionArgsToString toString (Some entries) =
    join " " (map (λ entry, "--" +:+ kebabCase entry.1 +:+ " " +:+ toString entry.2)
                forwarded)
  ∧ getTestExecutionCommand toString base (Some entries) =
    base +:+ followedBy ""
               (map (λ entry, "--" +:+ kebabCase entry.1 +:+ " " +:+ toString entry.2)
                  forwarded)
  ∧ (∀ before key value after,
       key ∉ [ "matchContract"; "matchTest"; "matchPath";
               "noMatchContract"; "noMatchTest"; "noMatchPath";
               "fuzzRuns"; "fuzzSeed" ] →
       getTestExecutionCommand toString base (Some (before ++ (key, value) :: after)%list) =
       getTestExecutionCommand toString base (Some (before ++ after)%list)).
Proof.
  intros forwarded. change forwarded with (retained entries). clear forwarded.
  split; [|split].
  - unfold convertTestExecutionArgsToString.
    by rewrite filter_isValidEntry, renderEntry_retained.
  - by rewrite getTestExecutionCommand_followedBy, followedBy_prefix, renderEntry_retained.
  - intros before key value after Hkey.
    rewrite !getTestExecutionCommand_followedBy.
    by rewrite (retained_unlisted before after key value Hkey).
Qed.

(** C5: the execution command is the compare-snapshots command followed
    by every retained argument, each written as two hyphens, the
    kebab-case form of its name, a space and its value, with a single
    space before each argument. *)
Theorem execution_command_of_arguments entries :
  getTestExecutionCommand toString base (Some entries) =
  followedBy base
    (map (λ entry, "--" +:+ kebabCase entry.1 +:+ " " +:+ toString entry.2)
       (retained entries)).
Proof.
  rewrite getTestExecutionCommand_followedBy. f_equal.
  apply map_ext_in. intros [key value] Hin.
  apply list_elem_of_In, list_elem_of_filter in Hin as [Hvalid _].
  unfold renderEntry. simpl in Hvalid |- *.
  by rewrite (convertCamelToExecArg_kebab key Hvalid).
Qed.

(** C9: without arguments, with an empty object, or with an object none
    of whose keys is whitelisted, the command is exactly the
    compare-snapshots command. *)
Theorem command_without_arguments (execArgs : option (list (string * Value))) :
  (∀ entries key value,
     execArgs = Some entries → (key, value) ∈ entries →
     key ∉ VALID_TEST_EXECUTION_ARGUMENTS) →
  getTestExecutionCommand toString base execArgs = base.
Proof.
  intros Hnone. destruct execArgs as [entries|]; [|reflexivity].
  rewrite getTestExecutionCommand_followedBy.
  replace (retained entries) with (@nil (string * Value)); [reflexivity|].
  symmetry. unfold retained. induction entries as [|[key value] entries IH]; [reflexivity|].
  rewrite filter_cons_False.
  - apply IH. intros entries' key' value' [= <-] Hin.
    eapply Hnone; [reflexivity | by right].
  - simpl. eapply Hnone; [reflexivity | by left].
Qed.

End ExecutionCommand.

Lemma unlisted_arguments_are_dropped_witness :
  ForgeUtils.getTestExecutionCommand (λ value : string, value) "forge snapshot --diff"
    (Some ([("matchTest", "testFoo")] ++ ("badArg", "x") :: [("fuzzRuns", "5")])%list)
  = ForgeUtils.getTestExecutionCommand (λ value : string, value) "forge snapshot --diff"
      (Some ([("matchTest", "testFoo")] ++ [("fuzzRuns", "5")])%list).
Proof.
  apply (proj2 (proj2 (unlisted_arguments_are_dropped (λ value : string, value)
                         "forge snapshot --diff" []))).
  intros Hbad.
  repeat (apply elem_of_cons in Hbad as [Hbad | Hbad]; [discriminate|]).
  by apply elem_of_nil in Hbad.
Defined.

Example command_with_an_unlisted_argument :
  ForgeUtils.getTestExecutionCommand (λ value : string, value) "forge snapshot --diff"
    (Some [("matchTest", "testFoo"); ("badArg", "x"); ("fuzzRuns", "5")])
  = "forge snapshot --diff --match-test testFoo --fuzz-runs 5".
Proof. reflexivity. Qed.

Lemma command_without_arguments_witness :
  ForgeUtils.getTestExecutionCommand (λ value : string, value) "forge snapshot --diff"
    (Some [("badArg", "x")])
  = "forge snapshot --diff".
Proof.
  apply (command_without_arguments (λ value : string, value) "forge snapshot --diff"
           (Some [("badArg", "x")])).
  intros entries key value [= <-] Hin.
  apply list_elem_of_singleton in Hin. injection Hin as -> ->.
  intros Hbad. unfold ForgeUtils.VALID_TEST_EXECUTION_ARGUMENTS in Hbad.
  repeat (apply elem_of_cons in Hbad as [Hbad | Hbad]; [discriminate|]).
  by apply elem_of_nil in Hbad.
Defined.

(** ** Merging the parser outputs *)

Section Merging.

Import ForgeMerge.

Implicit Types (testOutput : TestOutput) (gasChangeOutput : GasChangeOutput).
Implicit Types (result extra : JsObject) (results : list JsObject).

Lemma spread_lookup (a b : JsObject) (key : string) :
  spread a b !! key = match b !! key with Some v => Some v | None => a !! key end.
Proof.
  unfold spread. destruct (b !! key) as [v|] eqn:Hb.
  - by apply lookup_union_Some_l.
  - by apply lookup_union_r.
Qed.

Lemma mergeTest_lookup gasChangeOutput result (field : string) :
  mergeTest gasChangeOutput result !! field =
  match gas_tests gasChangeOutput !! testName result with
  | Some extra =>
      match extra !! field with Some v => Some v | None => result !! field end
  | None => result !! field
  end.
Proof.
  unfold mergeTest. rewrite spread_lookup.
  destruct (gas_tests gasChangeOutput !! testName result) as [extra|]; simpl; [done|].
  by rewrite lookup_empty.
Qed.

Lemma mergeTest_absent gasChangeOutput result :
  gas_tests gasChangeOutput !! testName result = None →
  mergeTest gasChangeOutput result = result.
Proof.
  intros Hnone. apply map_eq. intros field.
  by rewrite mergeTest_lookup, Hnone.
Qed.

Lemma testName_mergeTest gasChangeOutput result :
  (∀ name extra v,
     gas_tests gasChangeOutput !! name = Some extra →
     extra !! "test" = Some v → toPropertyKey (Some v) = name) →
  testName (mergeTest gasChangeOutput result) = testName result.
Proof.
  intros Hnames. unfold testName at 1. rewrite mergeTest_lookup.
  destruct (gas_tests gasChangeOutput !! testName result) as [extra|] eqn:Hentry; [|done].
  destruct (extra !! "test") as [v|] eqn:Hv; [|done].
  by apply (Hnames _ _ _ Hentry).
Qed.

(** A [null] of the gas-diff side replaces a value of the test side. *)
Example overall_null_wins :
  overall (mergeOutputs
    (mkTestOutput (Some {[ "passed" := JsBool true ]}) None)
    (mkGasChangeOutput (Some {[ "passed" := JsNull ]}) ∅))
  = Some {[ "passed" := JsNull ]}.
Proof. by vm_compute. Qed.

(** C3, as the code has it: the [overall] block holds the fields of both
    blocks, the value of the gas-diff side for a field that both have;
    the merged sequence is the sequence of the forge-test output, in its
    order and of its length, and each of its records holds its own
    fields and those of the gas-diff entry filed under its test name,
    the entry's value for a field that both have; a record without such
    an entry is unchanged.  A test that only the gas-diff output has
    does not appear: when no gas-diff entry carries a [test] field that
    names another test than the one it is filed under, no merged record
    bears a name that no record of the forge-test output bears. *)
Theorem merged_output_follows_test_results testOutput gasChangeOutput :
  (∃ merged,
     overall (mergeOutputs testOutput gasChangeOutput) = Some merged ∧
     ∀ field,
       merged !! field =
       match spreadable (gas_overall gasChangeOutput) !! field with
       | Some v => Some v
       | None => spreadable (overall testOutput) !! field
       end)
  ∧ (tests testOutput = None → tests (mergeOutputs testOutput gasChangeOutput) = None)
  ∧ (∀ results,
       tests testOutput = Some results →
       ∃ mergedResults,
         tests (mergeOutputs testOutput gasChangeOutput) = Some mergedResults ∧
         length mergedResults = length results ∧
         ∀ i result,
           results !! i = Some result →
           ∃ mergedResult,
             mergedResults !! i = Some mergedResult ∧
             (∀ field,
                mergedResult !! field =
                match gas_tests gasChangeOutput !! testName result with
                | Some extra =>
                    match extra !! field with
                    | Some v => Some v
                    | None => result !! field
                    end
                | None => result !! field
                end) ∧
             (gas_tests gasChangeOutput !! testName result = None →
              mergedResult = result))
  ∧ ((∀ name extra v,
        gas_tests gasChangeOutput !! name = Some extra →
        extra !! "test" = Some v → toPropertyKey (Some v) = name) →
     ∀ results mergedResults name mergedResult,
       tests testOutput = Some results →
       is_Some (gas_tests gasChangeOutput !! name) →
       (∀ result, result ∈ results → testName result ≠ name) →
       tests (mergeOutputs testOutput gasChangeOutput) = Some mergedResults →
       mergedResult ∈ mergedResults →
       testName mergedResult ≠ name).
Proof.
  split; [|split; [|split]].
  - eexists. split; [reflexivity|]. intros field. apply spread_lookup.
  - intros Hnone. simpl. by rewrite Hnone.
  - intros results Hsome. exists (map (mergeTest gasChangeOutput) results).
    split; [simpl; by rewrite Hsome|].
    split; [apply length_map|].
    intros i result Hi. exists (mergeTest gasChangeOutput result).
    split; [|split].
    + change (map (mergeTest gasChangeOutput) results)
        with (mergeTest gasChangeOutput <$> results).
      by rewrite list_lookup_fmap, Hi.
    + apply mergeTest_lookup.
    + apply mergeTest_absent.
  - intros Hnames results mergedResults name mergedResult Hresults _ Honly Hmerged Hin.
    simpl in Hmerged. rewrite Hresults in Hmerged. injection Hmerged as <-.
    change (map (mergeTest gasChangeOutput) results)
      with (mergeTest gasChangeOutput <$> results) in Hin.
    apply list_elem_of_fmap in Hin as (result & -> & Hresult).
    rewrite (testName_mergeTest _ _ Hnames). by apply Honly.
Qed.

Lemma merged_output_follows_test_results_witness :
  let result : JsObject :=
    {[ "test" := JsString "A.testBar"; "status" := JsString "PASS" ]} in
  let testOutput := mkTestOutput (Some {[ "numberOfTests" := JsNumber 1 ]}) (Some [result]) in
  let gasChangeOutput :=
    mkGasChangeOutput (Some {[ "gasDiffOverall" := JsNumber 8 ]})
      {[ "A.testBar" := {[ "gasDiff" := JsNumber 3 ]};
         "A.testFoo" := {[ "gasDiff" := JsNumber 5 ]} ]} in
  ∃ mergedResults,
    tests (mergeOutputs testOutput gasChangeOutput) = Some mergedResults ∧
    length mergedResults = length [result] ∧
    ∀ i result',
      [result] !! i = Some result' →
      ∃ mergedResult,
        mergedResults !! i = Some mergedResult ∧
        (∀ field,
           mergedResult !! field =
           match gas_tests gasChangeOutput !! testName result' with
           | Some extra =>
               match extra !! field with
               | Some v => Some v
               | None => result' !! field
               end
           | None => result' !! field
           end) ∧
        (gas_tests gasChangeOutput !! testName result' = None →
         mergedResult = result').
Proof.
  exact (proj1 (proj2 (proj2
    (merged_output_follows_test_results
       (mkTestOutput (Some {[ "numberOfTests" := JsNumber 1 ]})
          (Some [ {[ "test" := JsString "A.testBar"; "status" := JsString "PASS" ]} ]))
       (mkGasChangeOutput (Some {[ "gasDiffOverall" := JsNumber 8 ]})
          {[ "A.testBar" := {[ "gasDiff" := JsNumber 3 ]};
             "A.testFoo" := {[ "gasDiff" := JsNumber 5 ]} ]}))))
    [ {[ "test" := JsString "A.testBar"; "status" := JsString "PASS" ]} ] eq_refl).
Defined.

Example merged_record_of_two_outputs :
  mergeOutputs
    (mkTestOutput (Some {[ "numberOfTests" := JsNumber 1 ]})
       (Some [ {[ "test" := JsString "A.testBar"; "status" := JsString "PASS" ]} ]))
    (mkGasChangeOutput (Some {[ "gasDiffOverall" := JsNumber 8 ]})
       {[ "A.testBar" := {[ "gasDiff" := JsNumber 3 ]};
          "A.testFoo" := {[ "gasDiff" := JsNumber 5 ]} ]})
  = mkTestOutput
      (Some {[ "numberOfTests" := JsNumber 1; "gasDiffOverall" := JsNumber 8 ]})
      (Some [ {[ "test" := JsString "A.testBar"; "status" := JsString "PASS";
                 "gasDiff" := JsNumber 3 ]} ]).
Proof. by vm_compute. Qed.

(** C3 fails as stated: a test that only the gas-diff output has is not
    in the merged sequence. *)
Lemma gas_only_test_is_lost :
  let testOutput :=
    mkTestOutput (Some {[ "numberOfTests" := JsNumber 1 ]})
      (Some [ {[ "test" := JsString "A.testBar"; "status" := JsString "PASS" ]} ]) in
  let gasChangeOutput :=
    mkGasChangeOutput None
      {[ "A.testFoo" := {[ "gasDiff" := JsNumber 5 ]} ]} in
  gas_tests gasChangeOutput !! "A.testFoo" = Some {[ "gasDiff" := JsNumber 5 ]}
  ∧ tests (mergeOutputs testOutput gasChangeOutput)
    = Some [ {[ "test" := JsString "A.testBar"; "status" := JsString "PASS" ]} ]
  ∧ ¬ ∃ merged mergedResult,
        tests (mergeOutputs testOutput gasChangeOutput) = Some merged ∧
        mergedResult ∈ merged ∧ testName mergedResult = "A.testFoo".
Proof.
  assert (Htests :
    tests (mergeOutputs
      (mkTestOutput (Some {[ "numberOfTests" := JsNumber 1 ]})
         (Some [ {[ "test" := JsString "A.testBar"; "status" := JsString "PASS" ]} ]))
      (mkGasChangeOutput None {[ "A.testFoo" := {[ "gasDiff" := JsNumber 5 ]} ]}))
    = Some [ {[ "test" := JsString "A.testBar"; "status" := JsString "PASS" ]} ])
    by (by vm_compute).
  split; [by vm_compute|]. split; [exact Htests|].
  intros (merged & mergedResult & Hmerged & Hin & Hname).
  cbv zeta in Hmerged. rewrite Htests in Hmerged. injection Hmerged as <-.
  apply list_elem_of_singleton in Hin. subst mergedResult.
  vm_compute in Hname. discriminate.
Qed.

End Merging.

(** ** Processing the output of the discovery container *)

Section SnapshotOutput.

Import ProjectService.

Variable handleError : Thrown → string → AppError.

(** The wrapper [processDockerContainerOutput] returns whenever the
    parser does, and turns whatever the parser throws into the error of
    [handleError]. *)
Lemma processDockerContainerOutput_cases
  (parser : MaybeText → Result TestOutput) (projectName : string)
  (output : option ContainerOutput) :
  match parser (dataOf output) with
  | Ok report =>
      processDockerContainerOutput parser handleError projectName output
      = Ok (ProcessedOutput report)
  | Throw err =>
      ∃ e, processDockerContainerOutput parser handleError projectName output
           = Throw (AppErr e)
  end.
Proof.
  unfold processDockerContainerOutput, processForgeSnapshotOutput.
  destruct (parser (dataOf output)); [reflexivity | by eexists].
Qed.

Lemma omap_parseLine_nil (lines : list string) :
  Forall (λ line, GasSnapshot.parseLine line = None) lines →
  omap GasSnapshot.parseLine lines = [].
Proof.
  induction 1 as [|line lines Hline _ IH]; [reflexivity|].
  simpl. by rewrite Hline.
Qed.

(** With the gas-snapshot parser of the specification, processing the
    output returns a test report for every input, a string or [null] or
    [undefined]; a missing or empty text, and a text none of whose lines
    has the snapshot shape, give the empty report. *)
Theorem snapshot_output_is_always_a_report
  (projectName : string) (output : option ContainerOutput) (text : MaybeText) :
  let parser := λ t, Ok (GasSnapshot.extractTestOutputFromGasSnapshot t) in
  processForgeSnapshotOutput parser text
    = Ok (GasSnapshot.extractTestOutputFromGasSnapshot text)
  ∧ processDockerContainerOutput parser handleError projectName output
    = Ok (ProcessedOutput (GasSnapshot.extractTestOutputFromGasSnapshot (dataOf output)))
  ∧ processForgeSnapshotOutput parser Null = Ok GasSnapshot.emptyTestOutput
  ∧ processForgeSnapshotOutput parser Undefined = Ok GasSnapshot.emptyTestOutput
  ∧ processForgeSnapshotOutput parser (Text "") = Ok GasSnapshot.emptyTestOutput
  ∧ (∀ s, Forall (λ line, GasSnapshot.parseLine line = None) (GasSnapshot.lines s) →
          processForgeSnapshotOutput parser (Text s) = Ok GasSnapshot.emptyTestOutput).
Proof.
  repeat split; try reflexivity.
  intros s Hlines. unfold processForgeSnapshotOutput. simpl.
  by rewrite (omap_parseLine_nil _ Hlines).
Qed.

Example snapshot_of_two_tests :
  GasSnapshot.extractTestOutputFromGasSnapshot
    (Text (String.concat (String GasSnapshot.newline "")
             ["A:testFoo() (gas: 123)"; "not a test"; "B:testBar() (gas: 7)"]))
  = {| overall := Some {[ "numberOfTests" := JsNumber 2 ]};
       tests := Some
         [ {[ "test" := JsString "A.testFoo"; "gasUsed" := JsNumber 123;
              "status" := JsString "PASS" ]};
           {[ "test" := JsString "B.testBar"; "gasUsed" := JsNumber 7;
              "status" := JsString "PASS" ]} ] |}.
Proof. by vm_compute. Qed.

End SnapshotOutput.

Lemma snapshot_output_is_always_a_report_witness :
  Forall (λ line, GasSnapshot.parseLine line = None) (GasSnapshot.lines "Compiling...") ∧
  ProjectService.processForgeSnapshotOutput
    (λ t, Ok (GasSnapshot.extractTestOutputFromGasSnapshot t)) (Text "Compiling...")
  = Ok GasSnapshot.emptyTestOutput.
Proof.
  assert (H : Forall (λ line, GasSnapshot.parseLine line = None)
                (GasSnapshot.lines "Compiling..."))
    by (repeat constructor).
  split; [exact H|].
  apply (snapshot_output_is_always_a_report (λ _ msg, mkAppError 500 msg None)
           "demo" None Undefined).
  exact H.
Defined.

(** ** Building a project *)

Section Build.

Import ProjectService.

Context {World : Type}.
Variable constants : Constants.
Variable env : Collaborators World.

Ltac unfold_service :=
  unfold runSaveProject, saveProject, saveProjectBody, readProjectFromZipBuffer,
    tryCatch, finally, bind, call, lift, ret, throw, getDockerImage, setDockerImage;
  simpl.

Ltac step H := rewrite H; simpl.

(** C1, as the code has it: when the discovery container exits with a
    code other than PURPOSELY_STOPPED, only the processing of its output
    is skipped.  The history record of the build, with that exit code
    and the unprocessed output, is still handed to the database, and
    when the save succeeds the build returns the saved record; no image
    is removed. *)
Theorem discovery_exit_code_is_recorded
  (projectName : string) (zipBuffer : Buffer) (now : N)
  (w w3 w4 w5 : World) (dirs : string * string) (image : DockerImage)
  (containerResults : ContainerResults) (new : bool) (saved : DockerContainerHistory) :
  imageBuilt constants env projectName zipBuffer now w dirs image w3 →
  runImage env (projectName +:+ "_creation_" +:+ pretty now) (imageName image)
    (CMD_RETRIEVE_SNAPSHOTS constants) w3 = (Ok containerResults, w4) →
  statusCode containerResults ≠ PURPOSELY_STOPPED →
  saveDockerImageWithDockerContainerHistory env image
    (mkDockerContainerHistory image PROJECT_CREATION containerResults) w4
    = (Ok (new, saved), w5) →
  runSaveProject constants env projectName zipBuffer now w =
  (Ok (mkSavedProject new saved),
   mkState w5
     (buildCalls projectName now dirs ++
      [ RunImage (projectName +:+ "_creation_" +:+ pretty now) (imageName image)
          (CMD_RETRIEVE_SNAPSHOTS constants);
        SaveDockerImageWithDockerContainerHistory image
          (mkDockerContainerHistory image PROJECT_CREATION containerResults) ])
     (Some image)).
Proof.
  intros (w1 & w2 & Hread & Hcreate & Hrmdir) Hrun Hcode Hsave.
  unfold_service. step Hread. step Hcreate. step Hrmdir. step Hrun.
  destruct (decide (statusCode containerResults = PURPOSELY_STOPPED)); [done|].
  simpl. step Hsave. reflexivity.
Qed.

(** C7, as the code has it: once [dockerImage] is assigned, whichever
    later step throws (the discovery run, the processing of its output,
    the persistence), [removeImage] is called on the image name with
    [shouldPrune] set, as the last call; when the removal returns, the
    error of [handleError] for the build is thrown, and when the removal
    throws, its error is. *)
Theorem image_removed_after_later_failure
  (projectName : string) (zipBuffer : Buffer) (now : N)
  (w w3 wf wr : World) (dirs : string * string) (image : DockerImage)
  (err : Thrown) (later : list Call) (removal : Result unit) :
  imageBuilt constants env projectName zipBuffer now w dirs image w3 →
  laterFailure constants env projectName now image w3 err wf later →
  removeImage env (imageName image) true wf = (removal, wr) →
  runSaveProject constants env projectName zipBuffer now w =
  (match removal with
   | Ok _ =>
       Throw (AppErr (handleError env err
         ("An error occurred while creating the " +:+ projectName +:+ " project.")))
   | Throw removalError => Throw removalError
   end,
   mkState wr
     (buildCalls projectName now dirs ++ later ++ [RemoveImage (imageName image) true])
     (Some image)).
Proof.
  intros (w1 & w2 & Hread & Hcreate & Hrmdir) Hlater Hremove.
  destruct Hlater as
    [ err wf Hrun
    | containerResults err wf Hrun Hcode Hprocess
    | containerResults containerResults' err w4 wf Hrun Hprocess Hsave ];
    unfold_service; step Hread; step Hcreate; step Hrmdir; step Hrun.
  - step Hremove. by destruct removal.
  - destruct (decide (statusCode containerResults = PURPOSELY_STOPPED)); [|done].
    simpl. step Hprocess. step Hremove. by destruct removal.
  - destruct (decide (statusCode containerResults = PURPOSELY_STOPPED)).
    + destruct (processDockerContainerOutput _ _ _ _) as [processed|];
        simpl in Hprocess; [|done].
      injection Hprocess as <-. simpl. step Hsave. step Hremove. by destruct removal.
    + injection Hprocess as <-. simpl. step Hsave. step Hremove. by destruct removal.
Qed.

(** When the adapter itself throws, [dockerImage] is still [null]: the
    build is rethrown without any call to [removeImage]. *)
Lemma no_removal_when_the_adapter_fails
  (projectName : string) (zipBuffer : Buffer) (now : N)
  (w w1 w2 w3 : World) (dirs : string * string) (err : Thrown) (cleanup : Result unit) :
  readFromZipBuffer env (projectName +:+ "_creation_" +:+ pretty now) zipBuffer
    (PROJECT_UPLOAD_REQUIREMENTS_FILES constants)
    (PROJECT_UPLOAD_REQUIREMENTS_FOLDERS constants)
    [PATH_PROJECT_TEMPLATE constants] w = (Ok dirs, w1) →
  createImage env projectName dirs.2 w1 = (Throw err, w2) →
  removeDirectorySync env dirs.1 w2 = (cleanup, w3) →
  runSaveProject constants env projectName zipBuffer now w =
  (Throw (AppErr (handleError env
     (match cleanup with Ok _ => err | Throw cleanupError => cleanupError end)
     ("An error occurred while creating the " +:+ projectName +:+ " project."))),
   mkState w3 (buildCalls projectName now dirs) None).
Proof.
  intros Hread Hcreate Hrmdir.
  unfold_service. step Hread. step Hcreate. step Hrmdir.
  by destruct cleanup.
Qed.

End Build.

Section BuildScenarios.

Import ProjectService.

Lemma discovery_exit_code_is_recorded_witness :
  let scenario := mkScenario false TIMEOUT (Text "") false in
  let image := mkDockerImage "demo" "sha256:0001" in
  let history :=
    mkDockerContainerHistory image PROJECT_CREATION
      (mkContainerResults TIMEOUT (Some (RawOutput (Text "")))) in
  runSaveProject simulatedConstants (simulated scenario) "demo" [] 17 emptyWorld =
  (Ok (mkSavedProject true history),
   mkState (mkSimWorld ["demo"] [image] [history])
     [ ReadFromZipBuffer "demo_creation_17";
       CreateImage "demo" "/tmp/demo_creation_17/project";
       RemoveDirectorySync "/tmp/demo_creation_17";
       RunImage "demo_creation_17" "demo" "forge snapshot";
       SaveDockerImageWithDockerContainerHistory image history ]
     (Some image)).
Proof.
  apply (discovery_exit_code_is_recorded simulatedConstants
           (simulated (mkScenario false TIMEOUT (Text "") false))
           "demo" [] 17 emptyWorld
           (mkSimWorld ["demo"] [] []) (mkSimWorld ["demo"] [] [])
           (mkSimWorld ["demo"] [mkDockerImage "demo" "sha256:0001"]
              [mkDockerContainerHistory (mkDockerImage "demo" "sha256:0001") PROJECT_CREATION
                 (mkContainerResults TIMEOUT (Some (RawOutput (Text ""))))])
           ("/tmp/demo_creation_17", "/tmp/demo_creation_17/project")
           (mkDockerImage "demo" "sha256:0001")
           (mkContainerResults TIMEOUT (Some (RawOutput (Text ""))))
           true
           (mkDockerContainerHistory (mkDockerImage "demo" "sha256:0001") PROJECT_CREATION
              (mkContainerResults TIMEOUT (Some (RawOutput (Text "")))))).
  - exists emptyWorld, (mkSimWorld ["demo"] [] []). repeat split; reflexivity.
  - reflexivity.
  - simpl. discriminate.
  - reflexivity.
Defined.

(** C1 fails as stated: the discovery container exits with
    APPLICATION_ERROR, and the build succeeds; the project image and the
    history record of the failed run are persisted and the image stays
    in the engine. *)
Lemma failed_discovery_is_persisted :
  let scenario := mkScenario false APPLICATION_ERROR (Text "Compiler run failed") false in
  let image := mkDockerImage "demo" "sha256:0001" in
  ∃ saved s,
    runSaveProject simulatedConstants (simulated scenario) "demo" [] 17 emptyWorld
      = (Ok saved, s) ∧
    statusCode (container (project saved)) = APPLICATION_ERROR ∧
    statusCode (container (project saved)) ≠ PURPOSELY_STOPPED ∧
    savedHistories (world s) = [project saved] ∧
    savedImages (world s) = [image] ∧
    engineImages (world s) = ["demo"] ∧
    RemoveImage "demo" true ∉ calls s.
Proof.
  do 2 eexists. split; [by vm_compute|]. simpl.
  repeat split; try done.
  intros Hin. repeat (apply elem_of_cons in Hin as [Hin | Hin]; [discriminate|]).
  by apply elem_of_nil in Hin.
Qed.

Lemma image_removed_after_later_failure_witness :
  let scenario := mkScenario false PURPOSELY_STOPPED (Text "A:testFoo() (gas: 123)") true in
  let image := mkDockerImage "demo" "sha256:0001" in
  let history :=
    mkDockerContainerHistory image PROJECT_CREATION
      (mkContainerResults PURPOSELY_STOPPED
         (Some (ProcessedOutput
            (GasSnapshot.extractTestOutputFromGasSnapshot (Text "A:testFoo() (gas: 123)"))))) in
  runSaveProject simulatedConstants (simulated scenario) "demo" [] 17 emptyWorld =
  (Throw (AppErr (mkAppError 500 "An error occurred while creating the demo project."
                    (Some "The database rejected the document."))),
   mkState emptyWorld
     [ ReadFromZipBuffer "demo_creation_17";
       CreateImage "demo" "/tmp/demo_creation_17/project";
       RemoveDirectorySync "/tmp/demo_creation_17";
       RunImage "demo_creation_17" "demo" "forge snapshot";
       SaveDockerImageWithDockerContainerHistory image history;
       RemoveImage "demo" true ]
     (Some image)).
Proof.
  apply (image_removed_after_later_failure simulatedConstants
           (simulated (mkScenario false PURPOSELY_STOPPED (Text "A:testFoo() (gas: 123)") true))
           "demo" [] 17 emptyWorld
           (mkSimWorld ["demo"] [] []) (mkSimWorld ["demo"] [] []) emptyWorld
           ("/tmp/demo_creation_17", "/tmp/demo_creation_17/project")
           (mkDockerImage "demo" "sha256:0001")
           (JsError "The database rejected the document.")
           [ RunImage "demo_creation_17" "demo" "forge snapshot";
             SaveDockerImageWithDockerContainerHistory (mkDockerImage "demo" "sha256:0001")
               (mkDockerContainerHistory (mkDockerImage "demo" "sha256:0001") PROJECT_CREATION
                  (mkContainerResults PURPOSELY_STOPPED
                     (Some (ProcessedOutput
                        (GasSnapshot.extractTestOutputFromGasSnapshot
                           (Text "A:testFoo() (gas: 123)")))))) ]
           (Ok tt)).
  - exists emptyWorld, (mkSimWorld ["demo"] [] []). repeat split; reflexivity.
  - apply (persistence_failure simulatedConstants
             (simulated (mkScenario false PURPOSELY_STOPPED (Text "A:testFoo() (gas: 123)") true))
             "demo" 17 (mkDockerImage "demo" "sha256:0001") (mkSimWorld ["demo"] [] [])
             (mkContainerResults PURPOSELY_STOPPED
                (Some (RawOutput (Text "A:testFoo() (gas: 123)"))))
             (mkContainerResults PURPOSELY_STOPPED
                (Some (ProcessedOutput
                   (GasSnapshot.extractTestOutputFromGasSnapshot
                      (Text "A:testFoo() (gas: 123)")))))
             (JsError "The database rejected the document.")
             (mkSimWorld ["demo"] [] []) (mkSimWorld ["demo"] [] [])); reflexivity.
  - reflexivity.
Defined.

(** C7 fails as stated: the engine has tagged the image when the
    adapter fails; the build is rethrown without a call to
    [removeImage], and the image stays in the engine. *)
Lemma adapter_failure_leaves_the_image :
  let scenario := mkScenario true SUCCESS (Text "") false in
  ∃ e s,
    runSaveProject simulatedConstants (simulated scenario) "demo" [] 17 emptyWorld
      = (Throw e, s) ∧
    calls s = [ ReadFromZipBuffer "demo_creation_17";
                CreateImage "demo" "/tmp/demo_creation_17/project";
                RemoveDirectorySync "/tmp/demo_creation_17" ] ∧
    (RemoveImage "demo" true ∉ calls s) ∧
    "demo" ∈ engineImages (world s).
Proof.
  do 2 eexists. split; [by vm_compute|]. simpl.
  repeat split; try done.
  - intros Hin. repeat (apply elem_of_cons in Hin as [Hin | Hin]; [discriminate|]).
    by apply elem_of_nil in Hin.
  - by left.
Qed.

End BuildScenarios.

(** ** Errors of the snapshot parser *)

Section ParserErrors.

Import ProjectService.

Context {World : Type}.
Variable constants : Constants.
Variable env : Collaborators World.


(** When the parser returns, so does [processDockerContainerOutput],
    with the parser's report as the processed output. *)
Lemma parser_report_is_returned
  (projectName : string) (output : option ContainerOutput) (report : TestOutput) :
  extractTestOutputFromGasSnapshot env (dataOf output) = Ok report →
  processDockerContainerOutput (extractTestOutputFromGasSnapshot env) (handleError env)
    projectName output = Ok (ProcessedOutput report).
Proof.
  intros Hparse. unfold processDockerContainerOutput, processForgeSnapshotOutput.
  by rewrite Hparse.
Qed.

End ParserErrors.

Section ParserErrorScenarios.

Import ProjectService.



End ParserErrorScenarios.

(** ** Executing a submission from the front service *)

Section Execution.

Import ExecutionApi.

Variable CONFIG_TEST_EXECUTION : string → RequestConfig.
Variable sendFormData :
  RequestConfig → RequestFile → Messages → option (list (string * JsValue)) →
  Result ContainerExecutionResponse.
Variable handleContainerError : ContainerExecutionResponse → Thrown.

(** C2, as the code has it: [executeSubmission] returns the runner's
    response only when its status is SUCCESS; a response with any other
    status, APPLICATION_ERROR and TIMEOUT among them, is thrown as the
    error [handleContainerError] makes of it. *)
Theorem only_successful_responses_are_returned
  (projectName : string) (requestFile : RequestFile) (config : option IProjectConfig)
  (response : ContainerExecutionResponse) :
  sent CONFIG_TEST_EXECUTION sendFormData projectName requestFile config = Ok response →
  executeSubmission CONFIG_TEST_EXECUTION sendFormData handleContainerError
    projectName requestFile config
  = match status response with
    | SUCCESS => Ok response
    | APPLICATION_ERROR | TIMEOUT | INTERNAL => Throw (handleContainerError response)
    end.
Proof.
  unfold sent, executeSubmission. intros ->.
  destruct (decide (status response ≠ SUCCESS)) as [Hne|Heq].
  - by destruct (status response).
  - apply dec_stable in Heq. by rewrite Heq.
Qed.

End Execution.

Section ExecutionScenarios.

Import ExecutionApi.

Lemma only_successful_responses_are_returned_witness :
  executeSubmission (λ name, mkRequestConfig "POST" ("/projects/" +:+ name))
    (answering (mkContainerExecutionResponse SUCCESS None)) containerError
    "demo" (mkRequestFile "src.zip" (Some [80; 75]%N)) None
  = Ok (mkContainerExecutionResponse SUCCESS None).
Proof.
  apply (only_successful_responses_are_returned
           (λ name, mkRequestConfig "POST" ("/projects/" +:+ name))
           (answering (mkContainerExecutionResponse SUCCESS None)) containerError
           "demo" (mkRequestFile "src.zip" (Some [80; 75]%N)) None
           (mkContainerExecutionResponse SUCCESS None)).
  reflexivity.
Defined.

(** C2 fails as stated: the container ran and the runner answered with
    the status APPLICATION_ERROR (and likewise TIMEOUT);
    [executeSubmission] throws instead of returning the response. *)
Lemma failing_submission_is_thrown :
  executeSubmission (λ name, mkRequestConfig "POST" ("/projects/" +:+ name))
    (answering (mkContainerExecutionResponse APPLICATION_ERROR None)) containerError
    "demo" (mkRequestFile "src.zip" (Some [80; 75]%N)) None
  = Throw (AppErr (mkAppError 500 "APPLICATION_ERROR" None))
  ∧ executeSubmission (λ name, mkRequestConfig "POST" ("/projects/" +:+ name))
      (answering (mkContainerExecutionResponse TIMEOUT None)) containerError
      "demo" (mkRequestFile "src.zip" (Some [80; 75]%N)) None
    = Throw (AppErr (mkAppError 500 "TIMEOUT" None)).
Proof. split; reflexivity. Qed.

End ExecutionScenarios.

(** ** Reading the uploaded file *)

Section RequestFiles.

Import RouterUtils.

Variable handleError : Thrown → string → Z → AppError.

(** [handleError] gives an error that is not yet an [AppError] the
    status code it is called with. *)
Hypothesis handleError_status :
  ∀ err msg code,
    (∀ e, err ≠ AppErr e) → statusCode (handleError err msg code) = code.

(** C10: a request without a file, or with a file without a buffer,
    makes [getRequestFile] throw an [AppError] of status 400, which the
    router answers with 400; a request whose file has a buffer gets that
    file back. *)
Theorem getRequestFile_bad_request (req : Request) :
  match file req with
  | Some f =>
      match buffer f with
      | Some _ => getRequestFile handleError req = Ok f
      | None =>
          ∃ e, getRequestFile handleError req = Throw (AppErr e) ∧
               statusCode e = 400%Z ∧ responseStatus (AppErr e) = 400%Z
      end
  | None =>
      ∃ e, getRequestFile handleError req = Throw (AppErr e) ∧
           statusCode e = 400%Z ∧ responseStatus (AppErr e) = 400%Z
  end.
Proof.
  unfold getRequestFile.
  destruct (file req) as [f|]; [destruct (buffer f)|]; [reflexivity| |];
    (eexists; split; [reflexivity|]; simpl;
     split; by rewrite handleError_status).
Qed.

End RequestFiles.

Lemma getRequestFile_bad_request_witness :
  ∃ e, RouterUtils.getRequestFile (λ err msg code, mkAppError code msg None)
         (RouterUtils.mkRequest None) = Throw (AppErr e) ∧
       statusCode e = 400%Z ∧ RouterUtils.responseStatus (AppErr e) = 400%Z.
Proof.
  apply (getRequestFile_bad_request (λ err msg code, mkAppError code msg None)
           (λ err msg code _, eq_refl) (RouterUtils.mkRequest None)).
Defined.

(** ** Completing a message request *)

Section MessageRequests.

Import MessageRequestService.

Implicit Types (db : gmap string MessageRequest) (messageRequest found : MessageRequest).

(** C8, as the code has it: an update of a stored message request
    stores and returns the found record marked completed, with the
    document reference and the starting position (0 when none is
    given); [isError] and the payload are those of the response when
    one is passed and are left undefined otherwise; the other fields are
    kept. *)
Theorem updated_request_is_completed
  messageRequest found (documentId : ObjectId) (documentType : string)
  (response : option Response) (positionInTheQueue : option Z) db :
  db !! _id messageRequest = Some found →
  ∃ updated,
    updateMessageRequest messageRequest documentId documentType response positionInTheQueue db
      = (Ok updated, <[_id found := updated]> db) ∧
    completed updated = true ∧
    associatedDocumentId updated = Some documentId ∧
    associatedDocumentType updated = Some documentType ∧
    startingPositionInQueue updated = Some (default 0%Z positionInTheQueue) ∧
    isError updated = response_isError <$> response ∧
    output updated = response_data <$> response ∧
    _id updated = _id found ∧
    deployer updated = deployer found.
Proof.
  intros Hfound. eexists. unfold updateMessageRequest, findMessageRequest.
  rewrite Hfound. split; [reflexivity|]. simpl.
  repeat split. f_equal.
  destruct positionInTheQueue as [n|]; simpl; [|reflexivity].
  destruct (Z.eqb_spec n 0); congruence.
Qed.

Lemma updated_request_is_completed_witness :
  let pending := mkMessageRequest "64f0" "alice" None None None false None None in
  ∃ updated,
    updateMessageRequest pending "77aa" "Submission"
      (Some (mkResponse false (ResponsePayload (mkContainerExecutionResponse SUCCESS None))))
      (Some 3%Z) {[ "64f0" := pending ]}
      = (Ok updated, <[ "64f0" := updated ]> {[ "64f0" := pending ]}) ∧
    completed updated = true ∧
    associatedDocumentId updated = Some "77aa" ∧
    associatedDocumentType updated = Some "Submission" ∧
    startingPositionInQueue updated = Some 3%Z ∧
    isError updated = Some false ∧
    output updated = Some (ResponsePayload (mkContainerExecutionResponse SUCCESS None)) ∧
    _id updated = "64f0" ∧
    deployer updated = "alice".
Proof.
  apply (updated_request_is_completed
           (mkMessageRequest "64f0" "alice" None None None false None None)
           (mkMessageRequest "64f0" "alice" None None None false None None)
           "77aa" "Submission"
           (Some (mkResponse false (ResponsePayload (mkContainerExecutionResponse SUCCESS None))))
           (Some 3%Z)).
  apply lookup_singleton_eq.
Defined.

(** C8 fails as stated: updated without a response, the record is
    completed and carries neither a response payload nor an error
    payload, and its [isError] is undefined. *)
Lemma completed_without_payload :
  let pending := mkMessageRequest "64f0" "alice" None None None false None None in
  ∃ updated db',
    updateMessageRequest pending "77aa" "Submission" None None {[ "64f0" := pending ]}
      = (Ok updated, db') ∧
    db' !! "64f0" = Some updated ∧
    completed updated = true ∧
    isError updated = None ∧
    output updated = None.
Proof.
  do 2 eexists. split; [reflexivity|].
  split; [apply lookup_insert_eq|]. by repeat split.
Qed.

(** An unknown identifier is answered with 404 and nothing is stored. *)
Lemma update_of_unknown_request
  messageRequest (documentId : ObjectId) (documentType : string)
  (response : option Response) (positionInTheQueue : option Z) db :
  db !! _id messageRequest = None →
  ∃ e,
    updateMessageRequest messageRequest documentId documentType response positionInTheQueue db
      = (Throw (AppErr e), db) ∧ statusCode e = 404%Z.
Proof.
  intros Hnone. eexists. unfold updateMessageRequest, findMessageRequest.
  rewrite Hnone. split; reflexivity.
Qed.

End MessageRequests.

(** * Further properties *)

(** ** The flag of an execution argument *)

Section Flags.

Import ForgeUtils.

Lemma lower_char_not_upper (c : ascii) : is_upper (lower_char c) = false.
Proof. by destruct c as [[] [] [] [] [] [] [] []]. Qed.

Lemma lower_not_upper (c : ascii) : is_lower c = true → is_upper c = false.
Proof. by destruct c as [[] [] [] [] [] [] [] []]. Qed.

Lemma lower_char_id (c : ascii) : is_upper c = false → lower_char c = c.
Proof. unfold lower_char. by intros ->. Qed.

Lemma noUpper_toLowerCase (s : string) : noUpper (toLowerCase s) = true.
Proof.
  induction s as [|c s IH]; [reflexivity|].
  simpl. by rewrite lower_char_not_upper, IH.
Qed.

(** Whatever the argument name, its flag starts with two hyphens and
    holds no upper-case letter. *)
Theorem flag_is_lower_case (input : string) :
  (∃ rest, convertCamelToExecArg input = String "-" (String "-" rest))
  ∧ noUpper (convertCamelToExecArg input) = true.
Proof.
  split; [by eexists|].
  unfold convertCamelToExecArg. simpl. apply noUpper_toLowerCase.
Qed.

Lemma hyphenate_irrelevant (afterLower : bool) (c : ascii) (s : string) :
  afterLower && is_upper c = false →
  hyphenate afterLower (String c s) = hyphenate false (String c s).
Proof. simpl. by intros ->. Qed.

Lemma replaceCamel_hyphenate_both (s : string) :
  replaceCamel s = hyphenate false s
  ∧ ∀ c, replaceCamel (String c s) = hyphenate false (String c s).
Proof.
  induction s as [|c' s [IH1 IH2]]; [by split|].
  split; [apply IH2|]. intros c.
  change (replaceCamel (String c (String c' s)))
    with (if is_lower c && is_upper c'
          then String c (String "-" (String c' (replaceCamel s)))
          else String c (replaceCamel (String c' s))).
  change (hyphenate false (String c (String c' s)))
    with (String c (hyphenate (is_lower c) (String c' s))).
  destruct (is_lower c && is_upper c') eqn:Hmatch.
  - simpl. rewrite Hmatch. do 3 f_equal. rewrite IH1.
    apply andb_prop in Hmatch as [_ Hup].
    destruct s as [|c'' s]; [reflexivity|].
    symmetry. apply hyphenate_irrelevant.
    destruct (is_lower c') eqn:Hlow; [|reflexivity].
    apply lower_not_upper in Hlow. congruence.
  - f_equal. rewrite IH2. symmetry. by apply hyphenate_irrelevant.
Qed.

(** The replacement by the regular expression is one pass that writes a
    hyphen exactly before each upper-case letter that directly follows a
    lower-case letter: between two capitals, after a digit or at the
    start of the name none is written. *)
Theorem replaceCamel_is_one_pass (input : string) :
  replaceCamel input = hyphenate false input.
Proof. apply replaceCamel_hyphenate_both. Qed.

Lemma hyphenate_kebab (afterLower : bool) (s : string) :
  camelFrom afterLower s = true →
  toLowerCase (hyphenate afterLower s) = kebabCase s.
Proof.
  revert afterLower. induction s as [|c s IH]; intros afterLower Hcamel; [reflexivity|].
  simpl in Hcamel. apply andb_prop in Hcamel as [Hc Hrest].
  simpl. destruct (is_upper c) eqn:Hup.
  - rewrite Hc. simpl. by rewrite (IH _ Hrest).
  - rewrite andb_false_r. simpl. by rewrite (lower_char_id _ Hup), (IH _ Hrest).
Qed.

(** On every camelCase name made of ASCII characters, whitelisted or
    not, the flag is the kebab-case form of the name after two hyphens. *)
Theorem flag_of_camel_case_name (name : string) :
  isAscii name = true →
  isCamelCase name = true →
  convertCamelToExecArg name = "--" +:+ kebabCase name.
Proof.
  intros _ Hcamel. unfold convertCamelToExecArg.
  destruct (replaceCamel_hyphenate_both name) as [-> _].
  by rewrite (hyphenate_kebab _ _ Hcamel).
Qed.

End Flags.

Lemma flag_of_camel_case_name_witness :
  ForgeUtils.isAscii "gasReportSamples" = true ∧
  ForgeUtils.isCamelCase "gasReportSamples" = true ∧
  ForgeUtils.convertCamelToExecArg "gasReportSamples"
  = "--" +:+ ForgeUtils.kebabCase "gasReportSamples".
Proof.
  split; [reflexivity|]. split; [reflexivity|].
  apply (flag_of_camel_case_name "gasReportSamples"); reflexivity.
Defined.

(** ** Composing execution commands *)

Section Commands.

Import ForgeUtils.

Context {Value : Type} (toString : Value → string).

Implicit Types (entries : list (string * Value)) (base : string).

Lemma retained_app entries entries' :
  retained (entries ++ entries') = (retained entries ++ retained entries')%list.
Proof. unfold retained. apply filter_app. Qed.

Lemma followedBy_app base (arguments arguments' : list string) :
  followedBy base (arguments ++ arguments')%list =
  followedBy (followedBy base arguments) arguments'.
Proof. unfold followedBy. apply foldl_app. Qed.

(** The command for the entries of two objects one after the other is
    the command for the second object built on the command for the
    first: arguments only ever extend a command at its end. *)
Theorem command_of_appended_entries base entries entries' :
  getTestExecutionCommand toString base (Some (entries ++ entries')%list) =
  getTestExecutionCommand toString
    (getTestExecutionCommand toString base (Some entries)) (Some entries').
Proof.
  rewrite !(getTestExecutionCommand_followedBy toString).
  by rewrite retained_app, map_app, followedBy_app.
Qed.

(** Whatever the arguments, the command starts with the
    compare-snapshots command, and what follows it is empty or starts
    with a space and two hyphens. *)
Theorem command_starts_with_base base (execArgs : option (list (string * Value))) :
  ∃ suffix,
    getTestExecutionCommand toString base execArgs = base +:+ suffix ∧
    (suffix = "" ∨ ∃ rest, suffix = " --" +:+ rest).
Proof.
  destruct execArgs as [entries|].
  - rewrite (getTestExecutionCommand_followedBy toString), followedBy_prefix.
    eexists. split; [reflexivity|].
    destruct (retained entries) as [|entry rest]; [by left|right].
    rewrite map_cons. simpl. rewrite followedBy_prefix. by eexists.
  - exists "". split; [|by left].
    unfold getTestExecutionCommand. simpl. by rewrite append_empty_r.
Qed.

End Commands.

(** ** More on merging the parser outputs *)

Section MergingMore.

Import ForgeMerge.

Implicit Types (testOutput : TestOutput) (gasChangeOutput : GasChangeOutput).
Implicit Types (result extra : JsObject) (results : list JsObject).

(** [processForgeTestOutput] returns exactly when both parsers return;
    otherwise it throws what the first failing parser threw, the test
    parser being the first. *)
Theorem processForgeTestOutput_outcome
  (testParser : MaybeText → Result TestOutput)
  (gasParser : MaybeText → Result GasChangeOutput) (text : MaybeText) :
  processForgeTestOutput testParser gasParser text =
  match testParser text, gasParser text with
  | Throw e, _ => Throw e
  | Ok _, Throw e => Throw e
  | Ok testOutput, Ok gasChangeOutput => Ok (mergeOutputs testOutput gasChangeOutput)
  end.
Proof.
  unfold processForgeTestOutput.
  by destruct (testParser text), (gasParser text).
Qed.

(** Merging never loses a field of a test record: the fields of the
    merged record are those of the record and those of the gas-diff
    entry filed under its name. *)
Theorem merged_record_fields gasChangeOutput result :
  dom (mergeTest gasChangeOutput result) =
  dom result ∪ dom (spreadable (gas_tests gasChangeOutput !! testName result)).
Proof.
  unfold mergeTest, spread. rewrite dom_union_L. apply (comm_L (∪)).
Qed.

(** With no gas-diff information at all, the tests of the forge-test
    output come through unchanged, and the overall block is that of the
    forge-test output (an empty object when it had none). *)
Theorem merge_without_gas_information testOutput gasChangeOutput :
  gas_overall gasChangeOutput = None →
  gas_tests gasChangeOutput = ∅ →
  mergeOutputs testOutput gasChangeOutput =
  mkTestOutput (Some (spreadable (overall testOutput))) (tests testOutput).
Proof.
  intros Hoverall Htests. unfold mergeOutputs. rewrite Hoverall. f_equal.
  - f_equal. unfold spread. simpl. apply (left_id_L ∅ (∪)).
  - destruct (tests testOutput) as [results|]; [|reflexivity].
    simpl. f_equal. induction results as [|result results IH]; [reflexivity|].
    simpl. rewrite IH. f_equal. apply mergeTest_absent.
    rewrite Htests. apply lookup_empty.
Qed.

Lemma mergeTest_idemp gasChangeOutput result :
  (∀ name extra v,
     gas_tests gasChangeOutput !! name = Some extra →
     extra !! "test" = Some v → toPropertyKey (Some v) = name) →
  mergeTest gasChangeOutput (mergeTest gasChangeOutput result) =
  mergeTest gasChangeOutput result.
Proof.
  intros Hnames. unfold mergeTest at 1.
  rewrite (testName_mergeTest _ _ Hnames). unfold mergeTest, spread.
  by rewrite (assoc_L (∪)), (idemp_L (∪)).
Qed.

(** Merging is idempotent: when no gas-diff entry renames the test it
    is filed under, merging the merged output with the same gas-diff
    output again changes nothing. *)
Theorem merge_is_idempotent testOutput gasChangeOutput :
  (∀ name extra v,
     gas_tests gasChangeOutput !! name = Some extra →
     extra !! "test" = Some v → toPropertyKey (Some v) = name) →
  mergeOutputs (mergeOutputs testOutput gasChangeOutput) gasChangeOutput =
  mergeOutputs testOutput gasChangeOutput.
Proof.
  intros Hnames. unfold mergeOutputs. simpl. f_equal.
  - f_equal. unfold spread. by rewrite (assoc_L (∪)), (idemp_L (∪)).
  - destruct (tests testOutput) as [results|]; [|reflexivity].
    simpl. f_equal. induction results as [|result results IH]; [reflexivity|].
    simpl. by rewrite IH, (mergeTest_idemp _ _ Hnames).
Qed.

(** The merged sequence names the same tests, in the same order, as the
    forge-test output, under the same condition on the gas-diff entries. *)
Theorem merge_keeps_test_names testOutput gasChangeOutput results :
  (∀ name extra v,
     gas_tests gasChangeOutput !! name = Some extra →
     extra !! "test" = Some v → toPropertyKey (Some v) = name) →
  tests testOutput = Some results →
  (map testName <$> tests (mergeOutputs testOutput gasChangeOutput))
  = Some (map testName results).
Proof.
  intros Hnames Hresults. simpl. rewrite Hresults. simpl. f_equal.
  clear Hresults. induction results as [|result rest IH]; [reflexivity|].
  simpl. by rewrite IH, (testName_mergeTest _ _ Hnames).
Qed.

End MergingMore.

Section MergingScenarios.

Import ForgeMerge.

Lemma merge_without_gas_information_witness :
  let testOutput :=
    mkTestOutput (Some {[ "numberOfTests" := JsNumber 1 ]})
      (Some [ {[ "test" := JsString "A.testFoo" ]} ]) in
  mergeOutputs testOutput (mkGasChangeOutput None ∅) =
  mkTestOutput (Some (spreadable (overall testOutput))) (tests testOutput).
Proof.
  apply (merge_without_gas_information
           (mkTestOutput (Some {[ "numberOfTests" := JsNumber 1 ]})
              (Some [ {[ "test" := JsString "A.testFoo" ]} ]))
           (mkGasChangeOutput None ∅)); reflexivity.
Defined.

Lemma gas_entry_without_name (name : string) (extra : JsObject) (v : JsValue) :
  ({[ "A.testFoo" := {[ "gasDiff" := JsNumber 5 ]} ]} : gmap string JsObject) !! name
    = Some extra →
  extra !! "test" = Some v → toPropertyKey (Some v) = name.
Proof.
  intros Hentry Hv. apply lookup_singleton_Some in Hentry as [_ <-].
  by rewrite lookup_singleton_ne in Hv.
Defined.

Lemma merge_is_idempotent_witness :
  let testOutput :=
    mkTestOutput None (Some [ {[ "test" := JsString "A.testFoo" ]} ]) in
  let gasChangeOutput :=
    mkGasChangeOutput None {[ "A.testFoo" := {[ "gasDiff" := JsNumber 5 ]} ]} in
  mergeOutputs (mergeOutputs testOutput gasChangeOutput) gasChangeOutput =
  mergeOutputs testOutput gasChangeOutput.
Proof.
  apply (merge_is_idempotent
           (mkTestOutput None (Some [ {[ "test" := JsString "A.testFoo" ]} ]))
           (mkGasChangeOutput None {[ "A.testFoo" := {[ "gasDiff" := JsNumber 5 ]} ]})).
  exact gas_entry_without_name.
Defined.

Lemma merge_keeps_test_names_witness :
  let testOutput :=
    mkTestOutput None (Some [ {[ "test" := JsString "A.testFoo" ]} ]) in
  let gasChangeOutput :=
    mkGasChangeOutput None {[ "A.testFoo" := {[ "gasDiff" := JsNumber 5 ]} ]} in
  (map testName <$> tests (mergeOutputs testOutput gasChangeOutput))
  = Some (map testName [ {[ "test" := JsString "A.testFoo" ]} ]).
Proof.
  apply (merge_keeps_test_names
           (mkTestOutput None (Some [ {[ "test" := JsString "A.testFoo" ]} ]))
           (mkGasChangeOutput None {[ "A.testFoo" := {[ "gasDiff" := JsNumber 5 ]} ]})
           [ {[ "test" := JsString "A.testFoo" ]} ]).
  - exact gas_entry_without_name.
  - reflexivity.
Defined.

End MergingScenarios.

(** ** The calls of a build *)

Section BuildProtocol.

Import ProjectService.

Context {World : Type}.
Variable constants : Constants.
Variable env : Collaborators World.

Ltac unfold_service :=
  unfold runSaveProject, saveProject, saveProjectBody, readProjectFromZipBuffer,
    tryCatch, finally, bind, call, lift, ret, throw, getDockerImage, setDockerImage;
  simpl.

Ltac split_outcome H :=
  repeat match type of H with
         | context [match ?x with _ => _ end] =>
             lazymatch x with
             | context [match _ with _ => _ end] => fail
             | _ => destruct x eqn:?; simpl in H
             end
         end.

Lemma no_removal_in (l : list Call) (name : string) (prune : bool) :
  Forall (λ c, match c with RemoveImage _ _ => False | _ => True end) l →
  RemoveImage name prune ∉ l.
Proof.
  intros Hall Hin. rewrite Forall_forall in Hall. by apply Hall in Hin.
Qed.

(** A build that returns made exactly five calls: it read the archive,
    built the image, removed the scratch directory, ran the discovery
    container and saved the image with a history record of purpose
    PROJECT_CREATION for that image.  It never called [removeImage], and
    it returns what the database returned. *)
Theorem successful_build_protocol
  (projectName : string) (zipBuffer : Buffer) (now : N) (w : World)
  (result : SavedProject) (s : State World) :
  runSaveProject constants env projectName zipBuffer now w = (Ok result, s) →
  ∃ dirs image containerResults w',
    calls s =
      (buildCalls projectName now dirs ++
       [ RunImage (projectName +:+ "_creation_" +:+ pretty now) (imageName image)
           (CMD_RETRIEVE_SNAPSHOTS constants);
         SaveDockerImageWithDockerContainerHistory image
           (mkDockerContainerHistory image PROJECT_CREATION containerResults) ])%list ∧
    saveDockerImageWithDockerContainerHistory env image
      (mkDockerContainerHistory image PROJECT_CREATION containerResults) w'
      = (Ok (isNew result, project result), world s) ∧
    dockerImageVar s = Some image ∧
    (∀ name prune, RemoveImage name prune ∉ calls s).
Proof.
  unfold_service. intros H. split_outcome H; try discriminate.
  all: injection H as <- <-; simpl.
  all: match goal with
       | Hread : readFromZipBuffer _ _ _ _ _ _ _ = (Ok ?dirs, _),
         Hsave : saveDockerImageWithDockerContainerHistory _ ?image ?history ?w' = (Ok ?saved, _)
         |- _ =>
           exists dirs, image, (container history), w'; destruct saved
       end.
  all: split; [reflexivity|]; split; [assumption|]; split; [reflexivity|].
  all: intros name prune; apply no_removal_in; by repeat constructor.
Qed.

(** A build that throws called [removeImage] exactly when [dockerImage]
    had been assigned, once, as its last call, on the name of that image
    and with pruning.  When [dockerImage] was still [null], nothing was
    removed and the error thrown is the one [handleError] makes for the
    build. *)
Theorem failed_build_protocol
  (projectName : string) (zipBuffer : Buffer) (now : N) (w : World)
  (e : Thrown) (s : State World) :
  runSaveProject constants env projectName zipBuffer now w = (Throw e, s) →
  match dockerImageVar s with
  | None =>
      (∀ name prune, RemoveImage name prune ∉ calls s) ∧
      ∃ err, e = AppErr (handleError env err
                   ("An error occurred while creating the " +:+ projectName +:+ " project."))
  | Some image =>
      ∃ before,
        calls s = (before ++ [RemoveImage (imageName image) true])%list ∧
        ∀ name prune, RemoveImage name prune ∉ before
  end.
Proof.
  unfold_service. intros H. split_outcome H; try discriminate.
  all: injection H as <- <-; simpl.
  all: try (split; [intros name prune; apply no_removal_in; by repeat constructor
                   | by eexists]).
  all: match goal with
       | |- ∃ before, ?l = _ ∧ _ => exists (removelast l); simpl
       end.
  all: split; [reflexivity|].
  all: intros name prune; apply no_removal_in; by repeat constructor.
Qed.

(** When the discovery container exits with PURPOSELY_STOPPED and the
    parser returns a report, the history record that is saved keeps the
    exit code and carries the report in place of the raw output. *)
Theorem stopped_discovery_is_processed
  (projectName : string) (zipBuffer : Buffer) (now : N)
  (w w3 w4 w5 : World) (dirs : string * string) (image : DockerImage)
  (containerResults : ContainerResults) (report : TestOutput)
  (new : bool) (saved : DockerContainerHistory) :
  imageBuilt constants env projectName zipBuffer now w dirs image w3 →
  runImage env (projectName +:+ "_creation_" +:+ pretty now) (imageName image)
    (CMD_RETRIEVE_SNAPSHOTS constants) w3 = (Ok containerResults, w4) →
  statusCode containerResults = PURPOSELY_STOPPED →
  extractTestOutputFromGasSnapshot env (dataOf (output containerResults)) = Ok report →
  saveDockerImageWithDockerContainerHistory env image
    (mkDockerContainerHistory image PROJECT_CREATION
       (mkContainerResults PURPOSELY_STOPPED (Some (ProcessedOutput report)))) w4
    = (Ok (new, saved), w5) →
  runSaveProject constants env projectName zipBuffer now w =
  (Ok (mkSavedProject new saved),
   mkState w5
     (buildCalls projectName now dirs ++
      [ RunImage (projectName +:+ "_creation_" +:+ pretty now) (imageName image)
          (CMD_RETRIEVE_SNAPSHOTS constants);
        SaveDockerImageWithDockerContainerHistory image
          (mkDockerContainerHistory image PROJECT_CREATION
             (mkContainerResults PURPOSELY_STOPPED (Some (ProcessedOutput report)))) ])
     (Some image)).
Proof.
  intros (w1 & w2 & Hread & Hcreate & Hrmdir) Hrun Hcode Hparse Hsave.
  unfold_service. rewrite Hread. simpl. rewrite Hcreate. simpl.
  rewrite Hrmdir. simpl. rewrite Hrun. simpl.
  destruct (decide (statusCode containerResults = PURPOSELY_STOPPED)); [|done].
  unfold processDockerContainerOutput, processForgeSnapshotOutput.
  rewrite Hparse. simpl. rewrite Hcode, Hsave. reflexivity.
Qed.

(** An archive the file-system helper rejects stops the build at once:
    no image is built, no container run, nothing saved or removed, and
    the error of [handleError] for the build is thrown. *)
Theorem rejected_archive_stops_the_build
  (projectName : string) (zipBuffer : Buffer) (now : N) (w w1 : World) (err : Thrown) :
  readFromZipBuffer env (projectName +:+ "_creation_" +:+ pretty now) zipBuffer
    (PROJECT_UPLOAD_REQUIREMENTS_FILES constants)
    (PROJECT_UPLOAD_REQUIREMENTS_FOLDERS constants)
    [PATH_PROJECT_TEMPLATE constants] w = (Throw err, w1) →
  runSaveProject constants env projectName zipBuffer now w =
  (Throw (AppErr (handleError env err
     ("An error occurred while creating the " +:+ projectName +:+ " project."))),
   mkState w1 [ReadFromZipBuffer (projectName +:+ "_creation_" +:+ pretty now)] None).
Proof.
  intros Hread. unfold_service. by rewrite Hread.
Qed.

End BuildProtocol.

Section BuildProtocolScenarios.

Import ProjectService.

Lemma successful_build_protocol_witness :
  let scenario := mkScenario false PURPOSELY_STOPPED (Text "A:testFoo() (gas: 123)") false in
  ∃ result s,
    runSaveProject simulatedConstants (simulated scenario) "demo" [] 17 emptyWorld
      = (Ok result, s) ∧
    dockerImageVar s = Some (mkDockerImage "demo" "sha256:0001") ∧
    ∀ name prune, RemoveImage name prune ∉ calls s.
Proof.
  do 2 eexists. split; [reflexivity|].
  destruct (successful_build_protocol simulatedConstants
              (simulated (mkScenario false PURPOSELY_STOPPED
                            (Text "A:testFoo() (gas: 123)") false))
              "demo" [] 17 emptyWorld _ _ eq_refl)
    as (dirs & image & containerResults & w' & _ & _ & Himage & Hnever).
  split; [reflexivity | exact Hnever].
Defined.

Lemma failed_build_protocol_witness :
  let scenario := mkScenario false SUCCESS (Text "") true in
  ∃ e s before,
    runSaveProject simulatedConstants (simulated scenario) "demo" [] 17 emptyWorld
      = (Throw e, s) ∧
    calls s = (before ++ [RemoveImage "demo" true])%list ∧
    ∀ name prune, RemoveImage name prune ∉ before.
Proof.
  do 2 eexists.
  destruct (failed_build_protocol simulatedConstants
              (simulated (mkScenario false SUCCESS (Text "") true))
              "demo" [] 17 emptyWorld _ _ eq_refl)
    as (before & Hcalls & Hnever).
  exists before. split; [reflexivity|]. split; [exact Hcalls | exact Hnever].
Defined.

Lemma stopped_discovery_is_processed_witness :
  let scenario := mkScenario false PURPOSELY_STOPPED (Text "A:testFoo() (gas: 123)") false in
  let image := mkDockerImage "demo" "sha256:0001" in
  let report :=
    GasSnapshot.extractTestOutputFromGasSnapshot (Text "A:testFoo() (gas: 123)") in
  let history :=
    mkDockerContainerHistory image PROJECT_CREATION
      (mkContainerResults PURPOSELY_STOPPED (Some (ProcessedOutput report))) in
  runSaveProject simulatedConstants (simulated scenario) "demo" [] 17 emptyWorld =
  (Ok (mkSavedProject true history),
   mkState (mkSimWorld ["demo"] [image] [history])
     [ ReadFromZipBuffer "demo_creation_17";
       CreateImage "demo" "/tmp/demo_creation_17/project";
       RemoveDirectorySync "/tmp/demo_creation_17";
       RunImage "demo_creation_17" "demo" "forge snapshot";
       SaveDockerImageWithDockerContainerHistory image history ]
     (Some image)).
Proof.
  apply (stopped_discovery_is_processed simulatedConstants
           (simulated (mkScenario false PURPOSELY_STOPPED
                         (Text "A:testFoo() (gas: 123)") false))
           "demo" [] 17 emptyWorld
           (mkSimWorld ["demo"] [] []) (mkSimWorld ["demo"] [] [])
           (mkSimWorld ["demo"] [mkDockerImage "demo" "sha256:0001"]
              [mkDockerContainerHistory (mkDockerImage "demo" "sha256:0001") PROJECT_CREATION
                 (mkContainerResults PURPOSELY_STOPPED
                    (Some (ProcessedOutput
                       (GasSnapshot.extractTestOutputFromGasSnapshot
                          (Text "A:testFoo() (gas: 123)")))))])
           ("/tmp/demo_creation_17", "/tmp/demo_creation_17/project")
           (mkDockerImage "demo" "sha256:0001")
           (mkContainerResults PURPOSELY_STOPPED
              (Some (RawOutput (Text "A:testFoo() (gas: 123)"))))
           (GasSnapshot.extractTestOutputFromGasSnapshot (Text "A:testFoo() (gas: 123)"))
           true
           (mkDockerContainerHistory (mkDockerImage "demo" "sha256:0001") PROJECT_CREATION
              (mkContainerResults PURPOSELY_STOPPED
                 (Some (ProcessedOutput
                    (GasSnapshot.extractTestOutputFromGasSnapshot
                       (Text "A:testFoo() (gas: 123)"))))))).
  - exists emptyWorld, (mkSimWorld ["demo"] [] []). repeat split; reflexivity.
  - reflexivity.
  - reflexivity.
  - reflexivity.
  - reflexivity.
Defined.

Lemma rejected_archive_stops_the_build_witness :
  let env := rejectingArchives (simulated (mkScenario false SUCCESS (Text "") false)) in
  runSaveProject simulatedConstants env "demo" [] 17 emptyWorld =
  (Throw (AppErr (mkAppError 400 "The archive lacks a required file." None)),
   mkState emptyWorld [ReadFromZipBuffer "demo_creation_17"] None).
Proof.
  apply (rejected_archive_stops_the_build simulatedConstants
           (rejectingArchives (simulated (mkScenario false SUCCESS (Text "") false)))
           "demo" [] 17 emptyWorld emptyWorld
           (AppErr (mkAppError 400 "The archive lacks a required file." None))).
  reflexivity.
Defined.

Lemma no_removal_when_the_adapter_fails_witness :
  let scenario := mkScenario true SUCCESS (Text "") false in
  runSaveProject simulatedConstants (simulated scenario) "demo" [] 17 emptyWorld =
  (Throw (AppErr (mkAppError 500 "An error occurred while creating the demo project."
                    (Some "The image could not be inspected."))),
   mkState (mkSimWorld ["demo"] [] [])
     [ ReadFromZipBuffer "demo_creation_17";
       CreateImage "demo" "/tmp/demo_creation_17/project";
       RemoveDirectorySync "/tmp/demo_creation_17" ]
     None).
Proof.
  apply (no_removal_when_the_adapter_fails simulatedConstants
           (simulated (mkScenario true SUCCESS (Text "") false))
           "demo" [] 17 emptyWorld emptyWorld
           (mkSimWorld ["demo"] [] []) (mkSimWorld ["demo"] [] [])
           ("/tmp/demo_creation_17", "/tmp/demo_creation_17/project")
           (JsError "The image could not be inspected.") (Ok tt)); reflexivity.
Defined.

End BuildProtocolScenarios.

(** ** What the front service returns and throws for a submission *)

Section ExecutionOutcome.

Import ExecutionApi.

Variable CONFIG_TEST_EXECUTION : string → RequestConfig.
Variable sendFormData :
  RequestConfig → RequestFile → Messages → option (list (string * JsValue)) →
  Result ContainerExecutionResponse.
Variable handleContainerError : ContainerExecutionResponse → Thrown.

(** [executeSubmission] returns a response exactly when the runner
    returned that response and its status is SUCCESS; it throws either
    what the upload threw, unchanged, or the error
    [handleContainerError] makes of a response of another status. *)
Theorem executeSubmission_outcome
  (projectName : string) (requestFile : RequestFile) (config : option IProjectConfig) :
  (∀ response,
     executeSubmission CONFIG_TEST_EXECUTION sendFormData handleContainerError
       projectName requestFile config = Ok response
     ↔ sent CONFIG_TEST_EXECUTION sendFormData projectName requestFile config = Ok response
       ∧ status response = SUCCESS)
  ∧ (∀ e,
       executeSubmission CONFIG_TEST_EXECUTION sendFormData handleContainerError
         projectName requestFile config = Throw e
       ↔ sent CONFIG_TEST_EXECUTION sendFormData projectName requestFile config = Throw e
         ∨ ∃ response,
             sent CONFIG_TEST_EXECUTION sendFormData projectName requestFile config
               = Ok response
             ∧ status response ≠ SUCCESS ∧ e = handleContainerError response).
Proof.
  unfold executeSubmission, sent.
  destruct (sendFormData _ _ _ _) as [response'|e']; split.
  - intros response. destruct (decide (status response' ≠ SUCCESS)) as [Hne|Heq].
    + split; [discriminate|]. intros [[= ->] Hs]. contradiction.
    + apply dec_stable in Heq. split.
      * intros [= ->]. by split.
      * by intros [[= ->] _].
  - intros e. destruct (decide (status response' ≠ SUCCESS)) as [Hne|Heq].
    + split.
      * intros [= <-]. right. by exists response'.
      * intros [Habs | (response & [= <-] & _ & ->)]; [discriminate | reflexivity].
    + apply dec_stable in Heq. split; [discriminate|].
      intros [Habs | (response & [= <-] & Hne & _)]; [discriminate | contradiction].
  - intros response. split; [discriminate | by intros [? _]].
  - intros e. split.
    + intros [= ->]. by left.
    + intros [[= ->] | (response & Habs & _)]; [reflexivity | discriminate].
Qed.

End ExecutionOutcome.

(** ** Reading a JSON object from the request body (front service) *)

Section Bodies.

Import RouterUtils.

Context {Json : Type}.
Variable handleError : Thrown → option string → option Z → AppError.

(** With [required] set, whatever [parseJsonObjectFromBody] returns is
    the parsed value of a non-empty field of the body: a missing or
    empty field is never returned. *)
Theorem required_object_is_parsed
  (JSONparse : string → Parse Json) (req : Body) (objectKey : string)
  (object : BodyObject Json) :
  parseJsonObjectFromBody JSONparse handleError req objectKey true = Ok object →
  ∃ fields text json,
    body req = Some fields ∧ fields !! objectKey = Some text ∧ text ≠ "" ∧
    JSONparse text = ParsedValue json ∧ object = Provided json.
Proof.
  unfold parseJsonObjectFromBody.
  destruct (body req) as [fields|]; [|discriminate].
  simpl. destruct (fields !! objectKey) as [[|c text]|] eqn:Hfield; simpl; try discriminate.
  destruct (JSONparse (String c text)) as [json|msg] eqn:Hparse; [|discriminate].
  intros [= <-]. by exists fields, (String c text), json.
Qed.

(** The cause of a failed parse is not reported: two parsers that accept
    the same texts with the same values give the same outcome, whatever
    the messages of their syntax errors. *)
Theorem syntax_error_message_is_dropped
  (JSONparse JSONparse' : string → Parse Json) (req : Body) (objectKey : string)
  (required : bool) :
  (∀ text,
     match JSONparse text, JSONparse' text with
     | ParsedValue json, ParsedValue json' => json = json'
     | SyntaxError _, SyntaxError _ => True
     | _, _ => False
     end) →
  parseJsonObjectFromBody JSONparse handleError req objectKey required =
  parseJsonObjectFromBody JSONparse' handleError req objectKey required.
Proof.
  intros Hsame. unfold parseJsonObjectFromBody.
  destruct (body req) as [fields|]; [|reflexivity].
  simpl. destruct (falsy _ && required); [reflexivity|].
  destruct (fields !! objectKey) as [[|c text]|]; try reflexivity.
  specialize (Hsame (String c text)).
  destruct (JSONparse (String c text)), (JSONparse' (String c text)); try done.
  by subst.
Qed.

(** A request whose body was not parsed makes [parseJsonObjectFromBody]
    throw a plain [TypeError], outside its [try] block, which the router
    answers with 500 and not with 400. *)
Theorem missing_body_is_a_server_error
  (JSONparse : string → Parse Json) (req : Body) (objectKey : string) (required : bool) :
  body req = None →
  ∃ err,
    parseJsonObjectFromBody JSONparse handleError req objectKey required = Throw err ∧
    (∀ e, err ≠ AppErr e) ∧
    responseCode (sendErrorResponse err) = 500%Z.
Proof.
  intros Hbody. unfold parseJsonObjectFromBody. rewrite Hbody.
  eexists. split; [reflexivity|]. by split.
Qed.

End Bodies.

Section BodyScenarios.

Import RouterUtils.

Lemma required_object_is_parsed_witness :
  ∃ fields text json,
    body (mkBody (Some {[ "projectConfig" := "{}" ]})) = Some fields ∧
    fields !! "projectConfig" = Some text ∧ text ≠ "" ∧
    parseOnly "{}" text = ParsedValue json ∧
    (Provided "{}" : BodyObject string) = Provided json.
Proof.
  apply (required_object_is_parsed (λ err _ _, mkAppError 400 "" None)
           (parseOnly "{}") (mkBody (Some {[ "projectConfig" := "{}" ]}))
           "projectConfig" (Provided "{}")).
  by vm_compute.
Defined.

Lemma syntax_error_message_is_dropped_witness :
  parseJsonObjectFromBody (λ _ : string, SyntaxError "Unexpected token" : Parse string)
    (λ err _ _, mkAppError 400 "" None)
    (mkBody (Some {[ "projectConfig" := "{" ]})) "projectConfig" false
  = parseJsonObjectFromBody (λ _ : string, SyntaxError "Unexpected end of JSON input")
      (λ err _ _, mkAppError 400 "" None)
      (mkBody (Some {[ "projectConfig" := "{" ]})) "projectConfig" false.
Proof.
  apply (syntax_error_message_is_dropped (λ err _ _, mkAppError 400 "" None)
           (λ _ : string, SyntaxError "Unexpected token" : Parse string)
           (λ _ : string, SyntaxError "Unexpected end of JSON input")).
  intros text. exact I.
Defined.

Lemma missing_body_is_a_server_error_witness :
  ∃ err,
    parseJsonObjectFromBody (parseOnly "{}") (λ err _ _, mkAppError 400 "" None)
      (mkBody None) "projectConfig" true = Throw err ∧
    (∀ e, err ≠ AppErr e) ∧
    responseCode (sendErrorResponse err) = 500%Z.
Proof.
  apply (missing_body_is_a_server_error (λ err _ _, mkAppError 400 "" None)
           (parseOnly "{}") (mkBody None) "projectConfig" true).
  reflexivity.
Defined.

End BodyScenarios.

(** ** The router of the runner *)

Section RunnerRouter.

Import RouterUtils RunnerRouterUtils.

Context {Json : Type}.
Variable JSONparse : string → Parse Json.
Variable logAndGetError : HTTPError → Raised.

Lemma parse_failure_shape
  (req : Body) (objectKey : string) (required : bool) (err : Raised) :
  parseJsonObjectFromBody JSONparse logAndGetError req objectKey required = Failed err →
  ∃ why,
    err = logAndGetError (mkHTTPError 400
            ("Failed to parse JSON object (" +:+ objectKey +:+ ") from the request body.")
            (Some why)).
Proof.
  unfold parseJsonObjectFromBody.
  destruct (body req) as [fields|]; simpl.
  - destruct (falsy (fields !! objectKey) && required); simpl.
    + intros [= <-]. by eexists.
    + destruct (fields !! objectKey) as [[|c text]|]; try discriminate.
      destruct (JSONparse (String c text)); [discriminate|].
      simpl. intros [= <-]. by eexists.
  - intros [= <-]. by eexists.
Qed.

(** Every failure of the runner's [parseJsonObjectFromBody] is reported
    as a failed parse with status 400, whatever went wrong: the error is
    what [logAndGetError] gives for an [HTTPError] of status 400 with
    the parse-failure message, and its reason is the message of what
    went wrong: that of the [TypeError] for a missing body, the
    not-found message for a missing required object, that of the
    [SyntaxError] for a text that does not parse. *)
Theorem runner_body_failure_is_400
  (req : Body) (objectKey : string) (required : bool) (err : Raised) :
  parseJsonObjectFromBody JSONparse logAndGetError req objectKey required = Failed err →
  ∃ why,
    err = logAndGetError (mkHTTPError 400
            ("Failed to parse JSON object (" +:+ objectKey +:+ ") from the request body.")
            (Some why)) ∧
    ((body req = None ∧
      why = "Cannot read properties of undefined (reading '" +:+ objectKey +:+ "')")
     ∨ (∃ fields,
          body req = Some fields ∧ falsy (fields !! objectKey) = true ∧ required = true ∧
          why = "Object (" +:+ objectKey +:+ ") not found in the request body.")
     ∨ (∃ fields text,
          body req = Some fields ∧ fields !! objectKey = Some text ∧ text ≠ "" ∧
          JSONparse text = SyntaxError why)).
Proof.
  unfold parseJsonObjectFromBody.
  destruct (body req) as [fields|]; simpl.
  - destruct (falsy (fields !! objectKey)) eqn:Hfalsy, required; simpl.
    + intros [= <-]. eexists. split; [reflexivity|].
      right; left. by exists fields.
    + destruct (fields !! objectKey) as [[|c text]|]; discriminate.
    + destruct (fields !! objectKey) as [[|c text]|] eqn:Hfield; try discriminate.
      destruct (JSONparse (String c text)) as [json|msg] eqn:Hparse; [discriminate|].
      simpl. intros [= <-]. eexists. split; [reflexivity|].
      right; right. by exists fields, (String c text).
    + destruct (fields !! objectKey) as [[|c text]|] eqn:Hfield; try discriminate.
      destruct (JSONparse (String c text)) as [json|msg] eqn:Hparse; [discriminate|].
      simpl. intros [= <-]. eexists. split; [reflexivity|].
      right; right. by exists fields, (String c text).
  - intros [= <-]. eexists. split; [reflexivity|]. by left.
Qed.

(** A required object that is missing or empty is reported by the runner
    as a failed parse whose reason says that the object was not found. *)
Theorem runner_missing_object_reported_as_parse_failure
  (req : Body) (fields : gmap string string) (objectKey : string) :
  body req = Some fields →
  falsy (fields !! objectKey) = true →
  parseJsonObjectFromBody JSONparse logAndGetError req objectKey true =
  Failed (logAndGetError (mkHTTPError 400
    ("Failed to parse JSON object (" +:+ objectKey +:+ ") from the request body.")
    (Some ("Object (" +:+ objectKey +:+ ") not found in the request body.")))).
Proof.
  intros Hbody Hfalsy. unfold parseJsonObjectFromBody.
  rewrite Hbody. simpl. by rewrite Hfalsy.
Qed.

(** The runner's [extractFileBuffer] fails only for a request without a
    file.  For a request the front service's [getRequestFile] accepts it
    returns the buffer of the file [getRequestFile] returns; for a file
    without a buffer, which [getRequestFile] rejects, it returns
    [undefined] without an error. *)
Theorem extractFileBuffer_is_laxer
  (handleError : Thrown → string → Z → AppError) (req : Request) :
  (∀ f, file req = Some f → extractFileBuffer logAndGetError req = Returned (buffer f))
  ∧ (∀ f, getRequestFile handleError req = Ok f →
          ∃ bytes, buffer f = Some bytes ∧
                   extractFileBuffer logAndGetError req = Returned (Some bytes))
  ∧ (∀ err, extractFileBuffer logAndGetError req = Failed err →
            file req = None ∧ ∃ e, getRequestFile handleError req = Throw e).
Proof.
  unfold extractFileBuffer, getRequestFile.
  destruct (file req) as [f|]; repeat split; try discriminate.
  - by intros f' [= <-].
  - destruct (buffer f) as [bytes|] eqn:Hbuffer; [|discriminate].
    intros f' [= <-]. rewrite Hbuffer. by exists bytes.
  - by eexists.
Qed.

(** When [logAndGetError] returns the error it is given, the runner
    answers every failure of [parseJsonObjectFromBody] and of
    [extractFileBuffer] with the status 400. *)
Theorem runner_failures_answered_with_400
  (req : Body) (fileReq : Request) (objectKey : string) (required : bool) (err : Raised) :
  (∀ e, logAndGetError e = HttpError e) →
  parseJsonObjectFromBody JSONparse logAndGetError req objectKey required = Failed err
  ∨ extractFileBuffer logAndGetError fileReq = Failed err →
  (handleError err).1 = 400%Z.
Proof.
  intros Hlog [Hparse | Hfile].
  - apply parse_failure_shape in Hparse as [why ->]. by rewrite Hlog.
  - unfold extractFileBuffer in Hfile.
    destruct (file fileReq); [discriminate|].
    injection Hfile as <-. by rewrite Hlog.
Qed.

End RunnerRouter.

Section RunnerRouterScenarios.

Import RouterUtils RunnerRouterUtils.

Lemma runner_body_failure_is_400_witness :
  let req := mkBody (Some {[ "execArgs" := "{" ]}) in
  ∃ why,
    logAndGetErrorAsIs (mkHTTPError 400
      "Failed to parse JSON object (execArgs) from the request body."
      (Some "Unexpected token"))
    = logAndGetErrorAsIs (mkHTTPError 400
        ("Failed to parse JSON object (" +:+ "execArgs" +:+ ") from the request body.")
        (Some why)) ∧
    ((body req = None ∧
      why = "Cannot read properties of undefined (reading '" +:+ "execArgs" +:+ "')")
     ∨ (∃ fields,
          body req = Some fields ∧ falsy (fields !! "execArgs") = true ∧ false = true ∧
          why = "Object (" +:+ "execArgs" +:+ ") not found in the request body.")
     ∨ (∃ fields text,
          body req = Some fields ∧ fields !! "execArgs" = Some text ∧ text ≠ "" ∧
          parseOnly "{}" text = SyntaxError why)).
Proof.
  apply (runner_body_failure_is_400 (parseOnly "{}") logAndGetErrorAsIs
           (mkBody (Some {[ "execArgs" := "{" ]})) "execArgs" false).
  by vm_compute.
Defined.

Lemma runner_missing_object_reported_as_parse_failure_witness :
  parseJsonObjectFromBody (parseOnly "{}") logAndGetErrorAsIs
    (mkBody (Some ∅)) "execArgs" true =
  Failed (logAndGetErrorAsIs (mkHTTPError 400
    ("Failed to parse JSON object (" +:+ "execArgs" +:+ ") from the request body.")
    (Some ("Object (" +:+ "execArgs" +:+ ") not found in the request body.")))).
Proof.
  apply (runner_missing_object_reported_as_parse_failure (parseOnly "{}")
           logAndGetErrorAsIs (mkBody (Some ∅)) ∅ "execArgs"); reflexivity.
Defined.

Lemma runner_failures_answered_with_400_witness :
  (handleError (logAndGetErrorAsIs (mkHTTPError 400
     "An error occurred while reading the file buffer."
     (Some "Cannot read properties of undefined (reading 'buffer')")))).1 = 400%Z.
Proof.
  apply (runner_failures_answered_with_400 (parseOnly "{}") logAndGetErrorAsIs
           (mkBody None) (mkRequest None) "execArgs" false).
  - reflexivity.
  - right. reflexivity.
Defined.

End RunnerRouterScenarios.

(** ** The collection of message requests *)

Section Collection.

Import MessageRequestService.

Implicit Types (db : gmap string MessageRequest) (messageRequest found : MessageRequest).

Lemma update_of_stored_request
  messageRequest found (documentId : ObjectId) (documentType : string)
  (response : option Response) (positionInTheQueue : option Z) db :
  db !! _id messageRequest = Some found →
  updateMessageRequest messageRequest documentId documentType response positionInTheQueue db
  = (Ok (assignUpdate found documentId documentType response positionInTheQueue),
     <[_id found :=
         assignUpdate found documentId documentType response positionInTheQueue]> db).
Proof.
  intros Hfound. unfold updateMessageRequest, findMessageRequest. by rewrite Hfound.
Qed.

(** The last update wins: a second update of the same request gives the
    record and the collection that it alone would have given, so what
    the first update stored (its document reference, position, error
    flag and payload) is overwritten, by undefined values too. *)
Theorem later_update_overrides
  messageRequest found (documentId documentId' : ObjectId)
  (documentType documentType' : string) (response response' : option Response)
  (positionInTheQueue positionInTheQueue' : option Z) db :
  wellKeyed db →
  db !! _id messageRequest = Some found →
  updateMessageRequest messageRequest documentId' documentType' response'
    positionInTheQueue'
    (updateMessageRequest messageRequest documentId documentType response
       positionInTheQueue db).2
  = updateMessageRequest messageRequest documentId' documentType' response'
      positionInTheQueue' db.
Proof.
  intros Hkeyed Hfound.
  rewrite (update_of_stored_request _ found _ _ _ _ db Hfound). simpl.
  rewrite (update_of_stored_request messageRequest found _ _ _ _ db Hfound).
  assert (Hid : _id found = _id messageRequest) by apply (Hkeyed _ _ Hfound).
  rewrite (update_of_stored_request messageRequest
             (assignUpdate found documentId documentType response positionInTheQueue)).
  - simpl. by rewrite insert_insert_eq.
  - rewrite Hid. apply lookup_insert_eq.
Qed.

End Collection.

Section CollectionScenarios.

Import MessageRequestService.

Lemma pending_collection_keyed :
  wellKeyed {[ "64f0" := mkMessageRequest "64f0" "alice" None None None false None None ]}.
Proof.
  intros key stored Hstored.
  apply lookup_singleton_Some in Hstored as [<- <-]. reflexivity.
Defined.

Lemma later_update_overrides_witness :
  let pending := mkMessageRequest "64f0" "alice" None None None false None None in
  let answered :=
    Some (mkResponse false (ResponsePayload (mkContainerExecutionResponse SUCCESS None))) in
  updateMessageRequest pending "77aa" "Submission" None None
    (updateMessageRequest pending "77aa" "Submission" answered (Some 2%Z)
       {[ "64f0" := pending ]}).2
  = updateMessageRequest pending "77aa" "Submission" None None {[ "64f0" := pending ]}.
Proof.
  apply (later_update_overrides
           (mkMessageRequest "64f0" "alice" None None None false None None)
           (mkMessageRequest "64f0" "alice" None None None false None None)).
  - exact pending_collection_keyed.
  - apply lookup_singleton_eq.
Defined.

Lemma update_of_unknown_request_witness :
  let pending := mkMessageRequest "64f0" "alice" None None None false None None in
  ∃ e,
    updateMessageRequest pending "77aa" "Submission" None None ∅
      = (Throw (AppErr e), ∅) ∧ statusCode e = 404%Z.
Proof.
  apply (update_of_unknown_request
           (mkMessageRequest "64f0" "alice" None None None false None None)
           "77aa" "Submission" None None ∅).
  apply lookup_empty.
Defined.

End CollectionScenarios.
